(** * schedule.py: a shallow embedding and its verified properties

    The program is a curses day planner.  A day runs from 08:00 to 21:00
    and is cut into half-hour slots; up to five tasks each own a list of
    work slots and a list of rest slots.  This file embeds

    - the time grid ([get_current_slot], [get_elapsed_time]),
    - the bar formatters ([format_slot_bar], [format_header_bar]),
    - the edit-mode key handler ([handle_edit_input]), and
    - the main loop ([main]) as a state-passing program over a clock and a
      keyboard oracle that records renders, beeps and sleeps in a trace.

    Python [int] is [Z]; a Python [str] is the list of its code points;
    a Python [list] is a Rocq [list]. *)

From stdpp Require Import base tactics numbers option list.

#[local] Open Scope Z_scope.
#[local] Set Warnings "-clear-no-such-hyp".

(** ** Module constants *)

Definition START_HOUR : Z := 8.
Definition END_HOUR : Z := 21.
Definition TOTAL_SLOTS : Z := (END_HOUR - START_HOUR) * 2.
Definition LEFT_PANEL_WIDTH : Z := 22.
Definition MAX_TASKS : Z := 5.

(** ** Time grid *)

(** The fields of [datetime.now()] that the program reads. *)
Record datetime := DateTime { hour : Z; minute : Z; second : Z }.

(** The ranges that Python's [datetime] guarantees for these fields. *)
Definition valid_time (now : datetime) : Prop :=
  0 ≤ hour now < 24 ∧ 0 ≤ minute now < 60 ∧ 0 ≤ second now < 60.

(** [get_current_slot] and [get_elapsed_time] read the clock themselves;
    here the reading is the argument. *)
Definition get_current_slot (now : datetime) : Z :=
  if (hour now <? START_HOUR) || (hour now >=? END_HOUR) then -1
  else
    let minutes_from_start := (hour now - START_HOUR) * 60 + minute now in
    minutes_from_start `div` 30.

Definition get_elapsed_time (now : datetime) : Z * Z :=
  if hour now <? START_HOUR then (0, 0)
  else
    let minutes_from_start := (hour now - START_HOUR) * 60 + minute now in
    let hours := minutes_from_start `div` 60 in
    let half_hours := (minutes_from_start `mod` 60) `div` 30 in
    (hours, half_hours * 3).

(** Wall-clock vocabulary used by the statements: seconds since midnight,
    and whole minutes elapsed since the start of the window. *)
Definition seconds_of_day (now : datetime) : Z :=
  hour now * 3600 + minute now * 60 + second now.

Definition hms (h m s : Z) : Z := h * 3600 + m * 60 + s.

Definition minutes_since_start (now : datetime) : Z :=
  (seconds_of_day now - hms START_HOUR 0 0) `div` 60.

(** The day-end test of the run loop. *)
Definition day_end (current_slot : Z) : bool :=
  (current_slot =? -1) || (current_slot >=? TOTAL_SLOTS).

(** ** Python lists and strings *)

(** [l[i]] with Python's negative indices: the position that is read, or
    [None] where Python raises IndexError. *)
Definition py_index (len : nat) (i : Z) : option nat :=
  let n := Z.of_nat len in
  if (0 <=? i) && (i <? n) then Some (Z.to_nat i)
  else if (- n <=? i) && (i <? 0) then Some (Z.to_nat (n + i))
  else None.

Definition py_get {A} (l : list A) (i : Z) : option (nat * A) :=
  match py_index (length l) i with
  | Some k => match l !! k with Some x => Some (k, x) | None => None end
  | None => None
  end.

(** [l.remove(x)]: drops the first occurrence.  Python raises ValueError
    when there is none; every call in the program sits under an
    [x in l] test. *)
Fixpoint py_remove (x : Z) (l : list Z) : list Z :=
  match l with
  | [] => []
  | y :: l' => if bool_decide (y = x) then l' else y :: py_remove x l'
  end.

(** [s[:-1]] *)
Definition drop_last {A} (s : list A) : list A := take (length s - 1) s.

(** [s[:w].ljust(w)] *)
Definition clip_ljust (w : nat) (s : list Z) : list Z :=
  let s := take w s in s ++ replicate (w - length s) 32.

(** Code points of the glyphs and of the characters the program names. *)
Definition EMPTY : Z := 0x25a2.
Definition CURRENT : Z := 0x25a3.
Definition FILLED : Z := 0x25a0.
Definition REST : Z := 0x25a8.
Definition BLANK : Z := 32.
Definition DOT : Z := 46.

(** ** Application state *)

Record Task := mkTask {
  name : list Z;
  slots : list Z;
  rest_slots : list Z
}.

Inductive Mode := Edit | Run.
Inductive Focus := FocusName | FocusSlots.

Record AppState := mkAppState {
  tasks : list Task;
  cursor_row : Z;
  cursor_col : Z;
  mode : Mode;
  edit_focus : Focus
}.

#[global] Instance Mode_eq_dec : EqDecision Mode.
Proof. solve_decision. Defined.
#[global] Instance Focus_eq_dec : EqDecision Focus.
Proof. solve_decision. Defined.

(** [AppState()]: [__post_init__] fills the empty task list with
    [MAX_TASKS] fresh tasks, each with its own lists. *)
Definition AppState_init : AppState :=
  mkAppState (replicate (Z.to_nat MAX_TASKS) (mkTask [] [] [])) 0 0 Edit FocusName.

Definition set_name (v : list Z) (t : Task) : Task :=
  mkTask v (slots t) (rest_slots t).
Definition set_slots (v : list Z) (t : Task) : Task :=
  mkTask (name t) v (rest_slots t).
Definition set_rest_slots (v : list Z) (t : Task) : Task :=
  mkTask (name t) (slots t) v.

Definition set_task (k : nat) (t : Task) (s : AppState) : AppState :=
  mkAppState (<[k:=t]> (tasks s)) (cursor_row s) (cursor_col s) (mode s) (edit_focus s).
Definition set_cursor_row (v : Z) (s : AppState) : AppState :=
  mkAppState (tasks s) v (cursor_col s) (mode s) (edit_focus s).
Definition set_cursor_col (v : Z) (s : AppState) : AppState :=
  mkAppState (tasks s) (cursor_row s) v (mode s) (edit_focus s).
Definition set_mode (v : Mode) (s : AppState) : AppState :=
  mkAppState (tasks s) (cursor_row s) (cursor_col s) v (edit_focus s).
Definition set_edit_focus (v : Focus) (s : AppState) : AppState :=
  mkAppState (tasks s) (cursor_row s) (cursor_col s) (mode s) v.

(** ** Bar formatters *)

(** The glyph that the body of the loop in [format_slot_bar] picks for
    slot [i]. *)
Definition slot_bar_char (slots rest_slots : list Z) (current_slot : Z)
    (is_running : bool) (i : Z) : Z :=
  if bool_decide (i ∈ rest_slots) then REST
  else if bool_decide (i ∈ slots) then
    if is_running then
      if i <? current_slot then FILLED
      else if i =? current_slot then CURRENT
      else EMPTY
    else EMPTY
  else BLANK.

Definition header_bar_char (current_slot : Z) (is_running : bool) (i : Z) : Z :=
  if is_running then
    if i <? current_slot then FILLED
    else if i =? current_slot then CURRENT
    else EMPTY
  else EMPTY.

(** One round of either loop: two copies of the glyph, then a dot unless
    this is the last slot. *)
Definition bar_step (char : Z → Z) (result : list Z) (i : Z) : list Z :=
  let result := result ++ replicate 2 (char i) in
  if i <? TOTAL_SLOTS - 1 then result ++ [DOT] else result.

(** What one round appends to [result]. *)
Definition bar_chunk (char : Z → Z) (i : Z) : list Z :=
  replicate 2 (char i) ++ (if i <? TOTAL_SLOTS - 1 then [DOT] else []).

Definition format_slot_bar (slots rest_slots : list Z) (current_slot : Z)
    (is_running : bool) : list Z :=
  foldl (bar_step (slot_bar_char slots rest_slots current_slot is_running))
    [] (seqZ 0 TOTAL_SLOTS).

Definition format_header_bar (current_slot : Z) (is_running : bool) : list Z :=
  foldl (bar_step (header_bar_char current_slot is_running))
    [] (seqZ 0 TOTAL_SLOTS).

(** ** Edit controller *)

(** Key codes.  The [KEY_*] values are those of ncurses' [curses.h], which
    Python's [curses] module re-exports ([KEY_F5] is [KEY_F0 + 5]); the
    others are [ord] of the character. *)
Definition KEY_DOWN : Z := 258.
Definition KEY_UP : Z := 259.
Definition KEY_LEFT : Z := 260.
Definition KEY_RIGHT : Z := 261.
Definition KEY_BACKSPACE : Z := 263.
Definition KEY_F5 : Z := 264 + 5.
Definition KEY_ENTER : Z := 343.
Definition ord_tab : Z := 9.
Definition ord_newline : Z := 10.
Definition ord_space : Z := 32.
Definition ord_r : Z := 114.
Definition ord_R : Z := 82.
Definition ord_q : Z := 113.
Definition ord_Q : Z := 81.

(** What a call does besides changing the state: return a boolean, or
    raise IndexError at [state.tasks[state.cursor_row]]. *)
Inductive outcome := Return (b : bool) | IndexError.

(** The body of the Space branch, on the task under the cursor. *)
Definition toggle_work (task : Task) (col : Z) : Task :=
  if bool_decide (col ∈ slots task) then
    set_slots (py_remove col (slots task)) task
  else if bool_decide (col ∈ rest_slots task) then
    let task := set_rest_slots (py_remove col (rest_slots task)) task in
    set_slots (slots task ++ [col]) task
  else
    set_slots (slots task ++ [col]) task.

(** The body of the R branch. *)
Definition toggle_rest (task : Task) (col : Z) : Task :=
  if bool_decide (col ∈ rest_slots task) then
    set_rest_slots (py_remove col (rest_slots task)) task
  else if bool_decide (col ∈ slots task) then
    let task := set_slots (py_remove col (slots task)) task in
    set_rest_slots (rest_slots task ++ [col]) task
  else
    set_rest_slots (rest_slots task ++ [col]) task.

(** The task object is mutated in place; the rows of [state.tasks] are
    distinct objects, so the mutation is an update of row [k]. *)
Definition handle_edit_input (state : AppState) (key : Z) : AppState * outcome :=
  if key =? KEY_F5 then (state, Return true)
  else if (key =? ord_tab) || (key =? 9) then
    (set_edit_focus
       (if decide (edit_focus state = FocusName) then FocusSlots else FocusName)
       state, Return false)
  else if key =? KEY_UP then
    (set_cursor_row (Z.max 0 (cursor_row state - 1)) state, Return false)
  else if key =? KEY_DOWN then
    (set_cursor_row (Z.min (MAX_TASKS - 1) (cursor_row state + 1)) state,
     Return false)
  else
    match edit_focus state with
    | FocusName =>
        match py_get (tasks state) (cursor_row state) with
        | None => (state, IndexError)
        | Some (k, task) =>
            if (key =? ord_newline) || (key =? KEY_ENTER) || (key =? 10)
               || (key =? 13) then
              (set_cursor_row (Z.min (MAX_TASKS - 1) (cursor_row state + 1)) state,
               Return false)
            else if (key =? KEY_BACKSPACE) || (key =? 127) || (key =? 8) then
              (set_task k (set_name (drop_last (name task)) task) state,
               Return false)
            else if (32 <=? key) && (key <=? 126) then
              if (length (name task) <? 15)%nat then
                (set_task k (set_name (name task ++ [key]) task) state,
                 Return false)
              else (state, Return false)
            else (state, Return false)
        end
    | FocusSlots =>
        match py_get (tasks state) (cursor_row state) with
        | None => (state, IndexError)
        | Some (k, task) =>
            if key =? KEY_LEFT then
              (set_cursor_col (Z.max 0 (cursor_col state - 1)) state, Return false)
            else if key =? KEY_RIGHT then
              (set_cursor_col (Z.min (TOTAL_SLOTS - 1) (cursor_col state + 1)) state,
               Return false)
            else if key =? ord_space then
              (set_task k (toggle_work task (cursor_col state)) state, Return false)
            else if (key =? ord_r) || (key =? ord_R) then
              (set_task k (toggle_rest task (cursor_col state)) state, Return false)
            else (state, Return false)
        end
    end.

(** The keys of the two transition tables, by focus. *)
Definition recognized (focus : Focus) (key : Z) : bool :=
  (key =? KEY_F5) || (key =? ord_tab) || (key =? KEY_UP) || (key =? KEY_DOWN)
  || match focus with
     | FocusName =>
         (key =? ord_newline) || (key =? 13) || (key =? KEY_ENTER)
         || (key =? KEY_BACKSPACE) || (key =? 127) || (key =? 8)
         || ((32 <=? key) && (key <=? 126))
     | FocusSlots =>
         (key =? KEY_LEFT) || (key =? KEY_RIGHT) || (key =? ord_space)
         || (key =? ord_r) || (key =? ord_R)
     end.

(** Keys as the main loop feeds them to the handler while in edit mode:
    the session ends when the handler asks to start the run or raises. *)
Fixpoint edit_session (state : AppState) (keys : list Z) : AppState :=
  match keys with
  | [] => state
  | key :: keys =>
      match handle_edit_input state key with
      | (state, Return false) => edit_session state keys
      | (state, Return true) => set_mode Run state
      | (state, IndexError) => state
      end
  end.

(** ** State predicates *)

Definition cursor_in_bounds (state : AppState) : Prop :=
  0 ≤ cursor_row state < MAX_TASKS ∧ 0 ≤ cursor_col state < TOTAL_SLOTS.

(** The task list has its [MAX_TASKS] rows and the cursor is on the grid. *)
Definition well_formed (state : AppState) : Prop :=
  Z.of_nat (length (tasks state)) = MAX_TASKS ∧ cursor_in_bounds state.

Definition name_fits (task : Task) : Prop := (length (name task) ≤ 15)%nat.

(** No index is both a work slot and a rest slot. *)
Definition slots_disjoint (task : Task) : Prop :=
  Forall (λ s, s ∉ rest_slots task) (slots task).

(** The two lists represent sets: no index is listed twice. *)
Definition slots_unique (task : Task) : Prop :=
  NoDup (slots task) ∧ NoDup (rest_slots task).

#[global] Instance slots_disjoint_dec task : Decision (slots_disjoint task).
Proof. unfold slots_disjoint. apply _. Defined.
#[global] Instance slots_unique_dec task : Decision (slots_unique task).
Proof. unfold slots_unique. apply _. Defined.

(** The printable keys, [32 <= key <= 126]. *)
Definition printable (key : Z) : Prop := 32 ≤ key ≤ 126.

(** ** Rendering and the main loop *)

(** What one [draw_interface] puts on the screen, without the fixed
    captions and the display attributes. *)
Record Row := mkRow {
  row_name : list Z;          (* left panel *)
  row_bar : list Z;           (* slot bar *)
  row_marker : option Z       (* column of the slot cursor, if drawn *)
}.

Record Screen := mkScreen {
  time_display : option (Z * Z);   (* [None] is the placeholder *)
  header_bar : list Z;
  rows : list Row;
  status_clock : option datetime;
  text_cursor : option (Z * Z)
}.

Inductive event := Refresh (screen : Screen) | Beep | Sleep (ms : Z).

(** The world outside the program: how many clock readings and key polls
    were consumed, and what was emitted so far, oldest first. *)
Record world := mkWorld {
  clock_reads : nat;
  key_polls : nat;
  trace : list event
}.

Definition world_init : world := mkWorld 0 0 [].

(** Computations that read and extend the world and may raise
    IndexError ([None]). *)
Definition io (A : Type) : Type := world → option A * world.

#[global] Instance io_ret : MRet io := λ A a w, (Some a, w).
#[global] Instance io_bind : MBind io := λ A B f m w,
  match m w with
  | (Some a, w') => f a w'
  | (None, w') => (None, w')
  end.

Definition raise {A} : io A := λ w, (None, w).

Definition emit (e : event) : io () := λ w,
  (Some (), mkWorld (clock_reads w) (key_polls w) (trace w ++ [e])).

Definition beep : io () := emit Beep.

(** [time.sleep(0.3)], in milliseconds. *)
Definition sleep (ms : Z) : io () := emit (Sleep ms).

Definition name_panel (task : Task) : list Z :=
  let total_task_slots := (length (slots task) + length (rest_slots task))%nat in
  let prefix :=
    if (0 <? total_task_slots)%nat then replicate total_task_slots EMPTY ++ [32]
    else [] in
  clip_ljust (Z.to_nat (LEFT_PANEL_WIDTH - 1)) (prefix ++ name task).

Definition draw_row (state : AppState) (current_slot : Z) (is_running : bool)
    (row_idx : Z) : option Row :=
  match py_get (tasks state) row_idx with
  | None => None
  | Some (_, task) =>
      Some (mkRow (name_panel task)
              (format_slot_bar (slots task) (rest_slots task) current_slot is_running)
              (if bool_decide (mode state = Edit) && bool_decide (row_idx = cursor_row state)
                  && bool_decide (edit_focus state = FocusSlots)
               then Some (LEFT_PANEL_WIDTH + cursor_col state * 3) else None))
  end.

Section Main.
(** The [n]-th reading of [datetime.now()] and the [n]-th result of
    [stdscr.getch()] (-1 on a timeout, and where the call fails). *)
Variable clock : nat → datetime.
Variable keyboard : nat → Z.

Definition now : io datetime := λ w,
  (Some (clock (clock_reads w)),
   mkWorld (S (clock_reads w)) (key_polls w) (trace w)).

Definition getch : io Z := λ w,
  (Some (keyboard (key_polls w)),
   mkWorld (clock_reads w) (S (key_polls w)) (trace w)).

Definition read_current_slot : io Z := t ← now; mret (get_current_slot t).
Definition read_elapsed_time : io (Z * Z) := t ← now; mret (get_elapsed_time t).

Definition draw_interface (state : AppState) : io Screen :=
  let is_running := bool_decide (mode state = Run) in
  current_slot ← (if is_running then read_current_slot else mret (-1));
  elapsed ← read_elapsed_time;
  rows ← (λ w, (mapM (draw_row state current_slot is_running)
                  (seqZ 0 MAX_TASKS), w));
  status_clock ← (if bool_decide (mode state = Edit) then mret None
                  else t ← now; mret (Some t));
  text_cursor ←
    (if bool_decide (mode state = Edit) && bool_decide (edit_focus state = FocusName)
     then
       match py_get (tasks state) (cursor_row state) with
       | None => raise
       | Some (_, task) =>
           let total_task_slots :=
             Z.of_nat (length (slots task) + length (rest_slots task)) in
           let prefix_len :=
             if 0 <? total_task_slots then total_task_slots + 1 else 0 in
           mret (Some (2 + cursor_row state,
                       Z.min (prefix_len + Z.of_nat (length (name task)))
                             (LEFT_PANEL_WIDTH - 2)))
       end
     else mret None);
  mret (mkScreen (if is_running then Some elapsed else None)
          (format_header_bar current_slot is_running)
          rows status_clock text_cursor).

(** [for _ in range(n): beep(); time.sleep(0.3)] *)
Fixpoint final_beeps (n : nat) : io () :=
  match n with
  | O => mret ()
  | S n => beep;; sleep 300;; final_beeps n
  end.

(** The run-mode block of the loop body; [None] stands for [break]. *)
Definition run_checks (last_minute : Z) : io (option Z) :=
  t ← now;
  current_slot ← read_current_slot;
  last_minute ← (if bool_decide (minute t ≠ last_minute)
                 then beep;; mret (minute t) else mret last_minute);
  if day_end current_slot then final_beeps 5;; mret None
  else mret (Some last_minute).

Inductive control := Continue (state : AppState) (last_minute : Z) | Break.

Definition loop_body (state : AppState) (last_minute : Z) : io control :=
  screen ← draw_interface state;
  emit (Refresh screen);;
  checked ← (if bool_decide (mode state = Run) then run_checks last_minute
             else mret (Some last_minute));
  match checked with
  | None => mret Break
  | Some last_minute =>
      key ← getch;
      if key =? -1 then mret (Continue state last_minute)
      else if bool_decide (mode state = Edit) then
        match handle_edit_input state key with
        | (state, Return true) => mret (Continue (set_mode Run state) (-1))
        | (state, Return false) => mret (Continue state last_minute)
        | (_, IndexError) => raise
        end
      else if (key =? ord_q) || (key =? ord_Q) then mret Break
      else mret (Continue state last_minute)
  end.

(** [while True], unrolled at most [fuel] times: the result is
    [Some Break] when the loop has ended, [Some (Continue _ _)] when it
    is still going after [fuel] rounds, [None] when IndexError escaped. *)
Fixpoint main_loop (fuel : nat) (state : AppState) (last_minute : Z) : io control :=
  match fuel with
  | O => mret (Continue state last_minute)
  | S fuel =>
      c ← loop_body state last_minute;
      match c with
      | Break => mret Break
      | Continue state last_minute => main_loop fuel state last_minute
      end
  end.

Definition main (fuel : nat) : option control * world :=
  main_loop fuel AppState_init (-1) world_init.
End Main.

Definition is_beep (e : event) : bool :=
  match e with Beep => true | _ => false end.

Definition is_refresh (e : event) : bool :=
  match e with Refresh _ => true | _ => false end.

Definition count_beeps (evs : list event) : nat :=
  length (filter (λ e, is_beep e) evs).

Definition count_refreshes (evs : list event) : nat :=
  length (filter (λ e, is_refresh e) evs).

(** ** Scenario data *)

(** A bar in which every slot is blank. *)
Definition blank_bar : list Z :=
  seqZ 0 TOTAL_SLOTS ≫= bar_chunk (λ _, BLANK).

(** The state of the scenario: task 0 is "Write" with work slots 0, 1, 2;
    the other four tasks are empty; the program is running. *)
Definition write_scenario : AppState :=
  mkAppState
    (mkTask [87; 114; 105; 116; 101] [0; 1; 2] [] :: replicate 4 (mkTask [] [] []))
    0 0 Run FocusName.

(** A clock that stands at the given time, a keyboard that only times
    out, and a keyboard on which F5 is pressed once, at the first poll. *)
Definition clock_at (t : datetime) : nat → datetime := λ _, t.
Definition no_keys : nat → Z := λ _, -1.
Definition F5_then_no_keys : nat → Z :=
  λ n, if decide (n = 0%nat) then KEY_F5 else -1.

(** ** Further vocabulary for the statements *)

(** The reading falls in the hours of the window. *)
Definition in_window (now : datetime) : Prop :=
  START_HOUR ≤ hour now < END_HOUR.

(** The indices that Python accepts for a list of length [len]. *)
Definition valid_index (len : nat) (i : Z) : Prop :=
  - Z.of_nat len ≤ i < Z.of_nat len.

(** How many code points of a bar are the glyph [g]. *)
Definition count_glyph (g : Z) (bar : list Z) : nat :=
  length (filter (λ c, c = g) bar).

(** The states the program can be in: those that key events lead to from
    the start of the program, through the handler or through the rounds of
    the main loop. *)
Definition reachable (state : AppState) : Prop :=
  (∃ keys, state = edit_session AppState_init keys) ∨
  (∃ clock keyboard fuel last_minute w,
     main clock keyboard fuel = (Some (Continue state last_minute), w)).

(** How often the index [s] is listed in [l]. *)
Definition occurrences (s : Z) (l : list Z) : nat :=
  length (filter (λ x, x = s) l).

(** The keys that the handler serves before it looks up the task. *)
Definition served_before_lookup (key : Z) : bool :=
  (key =? KEY_F5) || (key =? ord_tab) || (key =? KEY_UP) || (key =? KEY_DOWN).

(** The keys that can change a task, by focus. *)
Definition editing_key (focus : Focus) (key : Z) : bool :=
  match focus with
  | FocusName =>
      (key =? KEY_BACKSPACE) || (key =? 127) || (key =? 8)
      || ((32 <=? key) && (key <=? 126))
  | FocusSlots => (key =? ord_space) || (key =? ord_r) || (key =? ord_R)
  end.

(** * Properties of the time grid *)

Lemma TOTAL_SLOTS_eq : TOTAL_SLOTS = 26.
Proof. reflexivity. Qed.

Ltac time_arith :=
  unfold valid_time, minutes_since_start, seconds_of_day, hms,
    TOTAL_SLOTS, START_HOUR, END_HOUR in *;
  cbn [hour minute second] in *; Z.div_mod_to_equations; lia.

Lemma minutes_since_start_eq now :
  valid_time now →
  minutes_since_start now = (hour now - START_HOUR) * 60 + minute now.
Proof. intros Hv. time_arith. Qed.

Lemma get_current_slot_outside now :
  hour now < START_HOUR ∨ END_HOUR ≤ hour now → get_current_slot now = -1.
Proof.
  intros Hout. unfold get_current_slot.
  destruct (Z.ltb_spec (hour now) START_HOUR); [done|].
  destruct (Z.geb_spec (hour now) END_HOUR); [done|]. lia.
Qed.

Lemma get_current_slot_inside now :
  START_HOUR ≤ hour now < END_HOUR →
  get_current_slot now = ((hour now - START_HOUR) * 60 + minute now) `div` 30.
Proof.
  intros Hin. unfold get_current_slot.
  destruct (Z.ltb_spec (hour now) START_HOUR); [lia|].
  destruct (Z.geb_spec (hour now) END_HOUR); [lia|]. done.
Qed.

(** C2: [get_current_slot] is -1 before 08:00 and from 21:00 on; inside the
    window it is the number of whole half hours since 08:00, a value in
    [0, 26); it is 0 at 08:00 sharp and 25 throughout [20:30, 21:00). *)
Theorem current_slot_spec now :
  valid_time now →
  (hour now < START_HOUR ∨ END_HOUR ≤ hour now → get_current_slot now = -1) ∧
  (START_HOUR ≤ hour now < END_HOUR →
     get_current_slot now = minutes_since_start now `div` 30 ∧
     0 ≤ get_current_slot now < TOTAL_SLOTS) ∧
  (seconds_of_day now = hms 8 0 0 → get_current_slot now = 0) ∧
  (hms 20 30 0 ≤ seconds_of_day now < hms 21 0 0 → get_current_slot now = 25).
Proof.
  intros Hv. split; [apply get_current_slot_outside|].
  split; [|split].
  - intros Hin. rewrite minutes_since_start_eq, get_current_slot_inside by done.
    split; [done|]. time_arith.
  - intros H8. rewrite get_current_slot_inside by time_arith. time_arith.
  - intros H2030. rewrite get_current_slot_inside by time_arith. time_arith.
Qed.

Lemma current_slot_spec_witness :
  valid_time (DateTime 20 45 10) ∧ get_current_slot (DateTime 20 45 10) = 25.
Proof.
  assert (Hv : valid_time (DateTime 20 45 10)) by (unfold valid_time; simpl; lia).
  split; [exact Hv|].
  apply (current_slot_spec (DateTime 20 45 10) Hv).
  unfold seconds_of_day, hms; simpl; lia.
Defined.

Lemma get_elapsed_time_before now :
  hour now < START_HOUR → get_elapsed_time now = (0, 0).
Proof.
  intros Hlt. unfold get_elapsed_time.
  destruct (Z.ltb_spec (hour now) START_HOUR); [done|lia].
Qed.

Lemma get_elapsed_time_from_start now :
  START_HOUR ≤ hour now → 0 ≤ minute now < 60 →
  get_elapsed_time now =
    (hour now - START_HOUR, if 30 <=? minute now then 3 else 0).
Proof.
  intros Hge Hmin. unfold get_elapsed_time.
  destruct (Z.ltb_spec (hour now) START_HOUR); [lia|].
  cbv zeta. f_equal.
  - Z.div_mod_to_equations; lia.
  - destruct (Z.leb_spec 30 (minute now)); Z.div_mod_to_equations; lia.
Qed.

(** C8: [get_elapsed_time] is (0, 0) before 08:00; from 08:00 on it is the
    number of whole hours since 08:00 paired with 3 when the minute of the
    hour is at least 30 and with 0 otherwise; it is (1, 3) throughout
    [09:30, 10:00); and from 21:00 on the hours value is at least 13 and is
    larger again an hour later. *)
Theorem elapsed_time_spec now later :
  valid_time now → valid_time later →
  (seconds_of_day now < hms 8 0 0 → get_elapsed_time now = (0, 0)) ∧
  (hms 8 0 0 ≤ seconds_of_day now →
     get_elapsed_time now =
       (minutes_since_start now `div` 60, if 30 <=? minute now then 3 else 0)) ∧
  (hms 9 30 0 ≤ seconds_of_day now < hms 10 0 0 → get_elapsed_time now = (1, 3)) ∧
  (hms 21 0 0 ≤ seconds_of_day now →
     13 ≤ (get_elapsed_time now).1 ∧
     (seconds_of_day now + 3600 ≤ seconds_of_day later →
        (get_elapsed_time now).1 < (get_elapsed_time later).1)).
Proof.
  intros Hv Hv'. repeat split.
  - intros Hlt. apply get_elapsed_time_before. time_arith.
  - intros Hge. rewrite get_elapsed_time_from_start by time_arith.
    f_equal. time_arith.
  - intros Hin. rewrite get_elapsed_time_from_start by time_arith.
    assert (hour now = 9 ∧ 30 ≤ minute now) as [-> Hm] by time_arith.
    destruct (Z.leb_spec 30 (minute now)); [done|lia].
  - rewrite get_elapsed_time_from_start by time_arith. simpl. time_arith.
  - intros Hlater. rewrite !get_elapsed_time_from_start by time_arith.
    simpl. time_arith.
Qed.

Lemma elapsed_time_spec_witness :
  get_elapsed_time (DateTime 9 47 30) = (1, 3) ∧
  (get_elapsed_time (DateTime 21 10 0)).1 < (get_elapsed_time (DateTime 22 30 0)).1.
Proof.
  assert (Hv1 : valid_time (DateTime 9 47 30)) by (unfold valid_time; simpl; lia).
  assert (Hv2 : valid_time (DateTime 21 10 0)) by (unfold valid_time; simpl; lia).
  assert (Hv3 : valid_time (DateTime 22 30 0)) by (unfold valid_time; simpl; lia).
  split.
  - apply (elapsed_time_spec (DateTime 9 47 30) (DateTime 9 47 30) Hv1 Hv1).
    unfold seconds_of_day, hms; simpl; lia.
  - apply (elapsed_time_spec (DateTime 21 10 0) (DateTime 22 30 0) Hv2 Hv3);
      unfold seconds_of_day, hms; simpl; lia.
Defined.

(** C10: [get_current_slot] never reaches [TOTAL_SLOTS]: it is -1 or at
    most 25, and -1 for every hour from 21 on.  So the second half of the
    run loop's day-end test is always false, and the test amounts to
    comparing with -1. *)
Theorem current_slot_below_total now :
  valid_time now →
  get_current_slot now < TOTAL_SLOTS ∧
  (get_current_slot now = -1 ∨ 0 ≤ get_current_slot now ≤ 25) ∧
  (END_HOUR ≤ hour now → get_current_slot now = -1) ∧
  (get_current_slot now >=? TOTAL_SLOTS) = false ∧
  day_end (get_current_slot now) = (get_current_slot now =? -1).
Proof.
  intros Hv.
  assert (Hcases : get_current_slot now = -1 ∨ 0 ≤ get_current_slot now ≤ 25).
  { destruct (decide (START_HOUR ≤ hour now < END_HOUR)) as [Hin|Hout].
    - right. rewrite get_current_slot_inside by done. time_arith.
    - left. apply get_current_slot_outside. lia. }
  assert (Hlt : get_current_slot now < TOTAL_SLOTS)
    by (rewrite TOTAL_SLOTS_eq; lia).
  assert (Hge : (get_current_slot now >=? TOTAL_SLOTS) = false)
    by (destruct (Z.geb_spec (get_current_slot now) TOTAL_SLOTS); [lia|done]).
  repeat split; try done.
  - intros Hlate. apply get_current_slot_outside. by right.
  - unfold day_end. rewrite Hge. apply orb_false_r.
Qed.

Lemma current_slot_below_total_witness :
  get_current_slot (DateTime 21 0 0) = -1 ∧
  day_end (get_current_slot (DateTime 20 59 59)) = false.
Proof.
  assert (Hv1 : valid_time (DateTime 21 0 0)) by (unfold valid_time; simpl; lia).
  assert (Hv2 : valid_time (DateTime 20 59 59)) by (unfold valid_time; simpl; lia).
  split.
  - apply (current_slot_below_total (DateTime 21 0 0) Hv1). simpl. unfold END_HOUR. lia.
  - destruct (current_slot_below_total (DateTime 20 59 59) Hv2) as (_ & _ & _ & _ & ->).
    reflexivity.
Defined.

(** * Properties of the bar formatters *)

Lemma bar_step_chunk char result i :
  bar_step char result i = result ++ bar_chunk char i.
Proof.
  unfold bar_step, bar_chunk. destruct (i <? TOTAL_SLOTS - 1).
  - by rewrite <- (assoc_L (++)).
  - by rewrite app_nil_r.
Qed.

Lemma foldl_bar_step char l result :
  foldl (bar_step char) result l = result ++ (l ≫= bar_chunk char).
Proof.
  revert result. induction l as [|i l IH]; intros result; simpl.
  - by rewrite app_nil_r.
  - rewrite IH, bar_step_chunk. by rewrite <- (assoc_L (++)).
Qed.

Lemma bar_chunks_length char (n : nat) (m : Z) :
  m + Z.of_nat n ≤ TOTAL_SLOTS - 1 →
  length (seqZ m (Z.of_nat n) ≫= bar_chunk char) = (3 * n)%nat.
Proof.
  revert m. induction n as [|n IH]; intros m Hle; [done|].
  rewrite seqZ_cons by lia. simpl. rewrite length_app.
  replace (Z.pred (Z.of_nat (S n))) with (Z.of_nat n) by lia. rewrite IH by lia.
  unfold bar_chunk. destruct (Z.ltb_spec m (TOTAL_SLOTS - 1)); [simpl|]; lia.
Qed.

(** The bar is laid out in cells of three: slot [i] owns positions [3i]
    and [3i+1], and the dot after it, if any, is at [3i+2]. *)
Lemma bar_layout char i :
  0 ≤ i < TOTAL_SLOTS →
  let bar := foldl (bar_step char) [] (seqZ 0 TOTAL_SLOTS) in
  bar !! Z.to_nat (3 * i) = Some (char i) ∧
  bar !! Z.to_nat (3 * i + 1) = Some (char i) ∧
  bar !! Z.to_nat (3 * i + 2) = (if i <? TOTAL_SLOTS - 1 then Some DOT else None).
Proof.
  intros Hi bar. subst bar. rewrite foldl_bar_step, app_nil_l.
  assert (Hsplit : seqZ 0 TOTAL_SLOTS
                   = seqZ 0 i ++ i :: seqZ (Z.succ i) (TOTAL_SLOTS - 1 - i)).
  { replace TOTAL_SLOTS with (i + (1 + (TOTAL_SLOTS - 1 - i))) at 1 by lia.
    rewrite seqZ_app, (seqZ_cons (0 + i)) by lia.
    do 3 f_equal; lia. }
  rewrite Hsplit, bind_app, bind_cons.
  assert (Hlen : length (seqZ 0 i ≫= bar_chunk char) = Z.to_nat (3 * i)).
  { replace i with (Z.of_nat (Z.to_nat i)) at 1 by lia.
    rewrite bar_chunks_length by lia. lia. }
  assert (Hcell : ∀ k : nat,
             ((seqZ 0 i ≫= bar_chunk char) ++ bar_chunk char i ++
              (seqZ (Z.succ i) (TOTAL_SLOTS - 1 - i) ≫= bar_chunk char))
               !! (Z.to_nat (3 * i) + k)%nat
             = (bar_chunk char i ++
                (seqZ (Z.succ i) (TOTAL_SLOTS - 1 - i) ≫= bar_chunk char)) !! k).
  { intros k. rewrite lookup_app_r by lia. f_equal. lia. }
  replace (Z.to_nat (3 * i)) with (Z.to_nat (3 * i) + 0)%nat at 1 by lia.
  replace (Z.to_nat (3 * i + 1)) with (Z.to_nat (3 * i) + 1)%nat by lia.
  replace (Z.to_nat (3 * i + 2)) with (Z.to_nat (3 * i) + 2)%nat by lia.
  rewrite !Hcell.
  unfold bar_chunk at 1 2 3. simpl. split; [done|split; [done|]].
  destruct (Z.ltb_spec i (TOTAL_SLOTS - 1)); [done|].
  simpl. rewrite seqZ_nil by lia. done.
Qed.

Lemma slot_bar_char_rest slots rest_slots current_slot is_running i :
  i ∈ rest_slots →
  slot_bar_char slots rest_slots current_slot is_running i = REST.
Proof. intros Hin. unfold slot_bar_char. by rewrite bool_decide_true. Qed.

Lemma slot_bar_char_work slots rest_slots current_slot is_running i :
  i ∉ rest_slots → i ∈ slots →
  slot_bar_char slots rest_slots current_slot is_running i =
    header_bar_char current_slot is_running i.
Proof.
  intros Hrest Hwork. unfold slot_bar_char, header_bar_char.
  by rewrite bool_decide_false, bool_decide_true.
Qed.

Lemma slot_bar_char_unmarked slots rest_slots current_slot is_running i :
  i ∉ rest_slots → i ∉ slots →
  slot_bar_char slots rest_slots current_slot is_running i = BLANK.
Proof. intros Hrest Hwork. unfold slot_bar_char. by rewrite !bool_decide_false. Qed.

(** C7: in the bar of a task, slot [i] is drawn, at positions [3i] and
    [3i+1], with the rest glyph if [i] is a rest slot, whatever the mode and
    the current slot; otherwise, if [i] is a work slot, with the filled,
    current or empty glyph as [i] is below, at or above the current slot
    while running, and with the empty glyph while editing; otherwise with a
    blank.  At 08:45, running, a task with work slots 0, 1, 2 shows
    filled, current, empty, and the tasks without slots show blank bars. *)
Theorem slot_bar_glyph_rule slots rest_slots current_slot is_running i :
  0 ≤ i < TOTAL_SLOTS →
  let bar := format_slot_bar slots rest_slots current_slot is_running in
  (∃ glyph, bar !! Z.to_nat (3 * i) = Some glyph ∧
            bar !! Z.to_nat (3 * i + 1) = Some glyph ∧
     (i ∈ rest_slots → glyph = REST) ∧
     (i ∉ rest_slots → i ∈ slots → is_running = true →
        (i < current_slot → glyph = FILLED) ∧
        (i = current_slot → glyph = CURRENT) ∧
        (i > current_slot → glyph = EMPTY)) ∧
     (i ∉ rest_slots → i ∈ slots → is_running = false → glyph = EMPTY) ∧
     (i ∉ rest_slots → i ∉ slots → glyph = BLANK)) ∧
  format_slot_bar [] [] current_slot is_running = blank_bar ∧
  get_current_slot (DateTime 8 45 0) = 1 ∧
  ∃ screen w bar0,
    draw_interface (λ _, DateTime 8 45 0) write_scenario world_init
      = (Some screen, w) ∧
    row_bar <$> rows screen = [bar0; blank_bar; blank_bar; blank_bar; blank_bar] ∧
    take 9 bar0 = [FILLED; FILLED; DOT; CURRENT; CURRENT; DOT; EMPTY; EMPTY; DOT] ∧
    drop 9 bar0 = drop 9 blank_bar.
Proof.
  intros Hi bar. split; [|split; [|split]].
  - exists (slot_bar_char slots rest_slots current_slot is_running i).
    destruct (bar_layout (slot_bar_char slots rest_slots current_slot is_running)
                i Hi) as (H0 & H1 & _).
    split; [exact H0|]. split; [exact H1|].
    split; [apply slot_bar_char_rest|].
    split; [|split].
    + intros Hrest Hwork ->. rewrite slot_bar_char_work by done.
      unfold header_bar_char. repeat split; intros Hcmp.
      * by destruct (Z.ltb_spec i current_slot); [|lia].
      * destruct (Z.ltb_spec i current_slot); [lia|].
        by destruct (Z.eqb_spec i current_slot).
      * destruct (Z.ltb_spec i current_slot); [lia|].
        by destruct (Z.eqb_spec i current_slot); [lia|].
    + intros Hrest Hwork ->. by rewrite slot_bar_char_work.
    + apply slot_bar_char_unmarked.
  - unfold format_slot_bar. rewrite foldl_bar_step, app_nil_l.
    unfold blank_bar. apply list_bind_ext; [|done].
    intros j. unfold bar_chunk. rewrite slot_bar_char_unmarked; [done|..];
      apply not_elem_of_nil.
  - reflexivity.
  - eexists _, _, _. split; [vm_compute; reflexivity|].
    split; [vm_compute; reflexivity|]. split; vm_compute; reflexivity.
Qed.

Lemma slot_bar_glyph_rule_witness :
  format_slot_bar [0; 1; 2] [7] 1 true !! 3%nat = Some CURRENT ∧
  format_slot_bar [0; 1; 2] [7] 1 true !! 21%nat = Some REST.
Proof.
  split.
  - destruct (slot_bar_glyph_rule [0; 1; 2] [7] 1 true 1 ltac:(rewrite TOTAL_SLOTS_eq; lia))
      as ((g & H0 & _ & _ & Hrun & _) & _).
    change (Z.to_nat (3 * 1)) with 3%nat in H0. rewrite H0. f_equal.
    apply Hrun; [ | | reflexivity | reflexivity].
    + intros Hin. apply list_elem_of_In in Hin. simpl in Hin. lia.
    + apply list_elem_of_In. simpl. lia.
  - destruct (slot_bar_glyph_rule [0; 1; 2] [7] 1 true 7 ltac:(rewrite TOTAL_SLOTS_eq; lia))
      as ((g & H0 & _ & Hrest & _) & _).
    change (Z.to_nat (3 * 7)) with 21%nat in H0. rewrite H0. f_equal.
    apply Hrest. apply list_elem_of_In. simpl. lia.
Defined.

(** * Properties of the Python list operations *)

Lemma py_get_Some {A} (l : list A) i k x :
  py_get l i = Some (k, x) → l !! k = Some x.
Proof.
  unfold py_get. destruct (py_index (length l) i) as [k'|]; [|done].
  destruct (l !! k') as [x'|] eqn:Hk; [|done]. by intros [= <- <-].
Qed.

Lemma py_remove_subseteq x l y : y ∈ py_remove x l → y ∈ l.
Proof.
  induction l as [|z l IH]; simpl; [done|].
  case_bool_decide; rewrite !elem_of_cons; naive_solver.
Qed.

Lemma py_remove_Permutation x l : x ∈ l → l ≡ₚ x :: py_remove x l.
Proof.
  induction l as [|z l IH]; simpl; [by intros ?%elem_of_nil|].
  case_bool_decide as Hz; [by subst|].
  rewrite elem_of_cons. intros [->|Hin]; [done|].
  rewrite (IH Hin) at 1. apply Permutation_swap.
Qed.

Lemma py_remove_NoDup x l : NoDup l → NoDup (py_remove x l).
Proof.
  induction 1 as [|z l Hz Hl IH]; simpl; [constructor|].
  case_bool_decide; [done|].
  constructor; [|done]. intros Hin. by apply Hz, (py_remove_subseteq x).
Qed.

Lemma elem_of_py_remove x l y :
  NoDup l → y ∈ py_remove x l ↔ y ∈ l ∧ y ≠ x.
Proof.
  induction 1 as [|z l Hz Hl IH]; simpl.
  - rewrite elem_of_nil. naive_solver.
  - case_bool_decide as Hzx; rewrite ?elem_of_cons, ?IH; naive_solver.
Qed.

Lemma py_remove_app_fresh x l : x ∉ l → py_remove x (l ++ [x]) = l.
Proof.
  induction l as [|z l IH]; simpl.
  - by rewrite bool_decide_true.
  - rewrite not_elem_of_cons. intros [Hne Hnin].
    rewrite bool_decide_false by done. by rewrite IH.
Qed.

Lemma drop_last_snoc {A} (s : list A) c : drop_last (s ++ [c]) = s.
Proof.
  unfold drop_last. rewrite length_app. simpl.
  replace (length s + 1 - 1)%nat with (length s) by lia.
  by rewrite take_app_length.
Qed.

Lemma drop_last_length {A} (s : list A) :
  length (drop_last s) = (length s - 1)%nat.
Proof. unfold drop_last. rewrite length_take. lia. Qed.

(** * Properties of the edit controller *)

(** ** The branches of [handle_edit_input] *)

Lemma handle_F5 state : handle_edit_input state KEY_F5 = (state, Return true).
Proof. done. Qed.

Lemma handle_up state :
  handle_edit_input state KEY_UP
  = (set_cursor_row (Z.max 0 (cursor_row state - 1)) state, Return false).
Proof. done. Qed.

Lemma handle_down state :
  handle_edit_input state KEY_DOWN
  = (set_cursor_row (Z.min (MAX_TASKS - 1) (cursor_row state + 1)) state,
     Return false).
Proof. done. Qed.

Lemma handle_left state k task :
  edit_focus state = FocusSlots →
  py_get (tasks state) (cursor_row state) = Some (k, task) →
  handle_edit_input state KEY_LEFT
  = (set_cursor_col (Z.max 0 (cursor_col state - 1)) state, Return false).
Proof. intros Hf Hget. unfold handle_edit_input. simpl. by rewrite Hf, Hget. Qed.

Lemma handle_right state k task :
  edit_focus state = FocusSlots →
  py_get (tasks state) (cursor_row state) = Some (k, task) →
  handle_edit_input state KEY_RIGHT
  = (set_cursor_col (Z.min (TOTAL_SLOTS - 1) (cursor_col state + 1)) state,
     Return false).
Proof. intros Hf Hget. unfold handle_edit_input. simpl. by rewrite Hf, Hget. Qed.

Lemma handle_space state k task :
  edit_focus state = FocusSlots →
  py_get (tasks state) (cursor_row state) = Some (k, task) →
  handle_edit_input state ord_space
  = (set_task k (toggle_work task (cursor_col state)) state, Return false).
Proof. intros Hf Hget. unfold handle_edit_input. simpl. by rewrite Hf, Hget. Qed.

Lemma handle_r state k task key :
  edit_focus state = FocusSlots →
  py_get (tasks state) (cursor_row state) = Some (k, task) →
  key = ord_r ∨ key = ord_R →
  handle_edit_input state key
  = (set_task k (toggle_rest task (cursor_col state)) state, Return false).
Proof.
  intros Hf Hget [-> | ->]; unfold handle_edit_input; simpl; by rewrite Hf, Hget.
Qed.

Lemma handle_backspace state k task key :
  edit_focus state = FocusName →
  py_get (tasks state) (cursor_row state) = Some (k, task) →
  key = KEY_BACKSPACE ∨ key = 127 ∨ key = 8 →
  handle_edit_input state key
  = (set_task k (set_name (drop_last (name task)) task) state, Return false).
Proof.
  intros Hf Hget [-> | [-> | ->]]; unfold handle_edit_input; simpl;
    by rewrite Hf, Hget.
Qed.

Lemma handle_printable state k task key :
  edit_focus state = FocusName →
  py_get (tasks state) (cursor_row state) = Some (k, task) →
  printable key →
  handle_edit_input state key
  = (if (length (name task) <? 15)%nat
     then set_task k (set_name (name task ++ [key]) task) state
     else state, Return false).
Proof.
  intros Hf Hget Hkey. unfold printable in Hkey. unfold handle_edit_input.
  rewrite Hf, Hget.
  unfold KEY_F5, ord_tab, KEY_UP, KEY_DOWN, ord_newline, KEY_ENTER, KEY_BACKSPACE.
  repeat match goal with
         | |- context [?a =? ?b] => destruct (Z.eqb_spec a b); [lia|]
         end.
  simpl. destruct (Z.leb_spec 32 key); [|lia].
  destruct (Z.leb_spec key 126); [|lia]. simpl.
  by destruct (length (name task) <? 15)%nat.
Qed.

(** ** What every call preserves *)

Ltac handle_cases :=
  unfold handle_edit_input; repeat case_match; simplify_eq/=.

Lemma handle_cursor_in_bounds state key :
  cursor_in_bounds state → cursor_in_bounds (handle_edit_input state key).1.
Proof.
  unfold cursor_in_bounds. intros Hb.
  handle_cases; unfold MAX_TASKS, TOTAL_SLOTS, END_HOUR, START_HOUR in *; lia.
Qed.

Lemma handle_tasks_length state key :
  length (tasks (handle_edit_input state key).1) = length (tasks state).
Proof. handle_cases; by rewrite ?length_insert. Qed.

Lemma py_get_in_range {A} (l : list A) i :
  0 ≤ i < Z.of_nat (length l) → ∃ x, py_get l i = Some (Z.to_nat i, x).
Proof.
  intros Hi. unfold py_get, py_index.
  destruct (Z.leb_spec 0 i); [|lia].
  destruct (Z.ltb_spec i (Z.of_nat (length l))); [|lia]. simpl.
  destruct (lookup_lt_is_Some_2 l (Z.to_nat i)) as [x Hx]; [lia|].
  exists x. by rewrite Hx.
Qed.

Lemma well_formed_row state :
  well_formed state → is_Some (py_get (tasks state) (cursor_row state)).
Proof.
  intros [Hlen [Hrow _]].
  destruct (py_get_in_range (tasks state) (cursor_row state)) as [x Hx]; [lia|].
  by rewrite Hx.
Qed.

Lemma handle_well_formed state key :
  well_formed state → well_formed (handle_edit_input state key).1.
Proof.
  intros [Hlen Hb]. split.
  - by rewrite handle_tasks_length.
  - by apply handle_cursor_in_bounds.
Qed.

(** In a well-formed state the handler does not raise. *)
Lemma handle_no_IndexError state key :
  well_formed state → (handle_edit_input state key).2 ≠ IndexError.
Proof.
  intros [[k task] Hget]%well_formed_row.
  unfold handle_edit_input. rewrite Hget. by repeat case_match.
Qed.

Lemma handle_tasks_Forall (P : Task → Prop) state key :
  (∀ t c, P t → P (toggle_work t c)) →
  (∀ t c, P t → P (toggle_rest t c)) →
  (∀ t, P t → P (set_name (drop_last (name t)) t)) →
  (∀ t c, P t → (length (name t) < 15)%nat → P (set_name (name t ++ [c]) t)) →
  Forall P (tasks state) → Forall P (tasks (handle_edit_input state key).1).
Proof.
  intros Hwork Hrest Hdrop Happ HP.
  assert (Hrow : ∀ k t, py_get (tasks state) (cursor_row state) = Some (k, t) → P t).
  { intros k t Hget%py_get_Some. by eapply Forall_lookup_1. }
  handle_cases; try done; apply Forall_insert; eauto.
  apply Happ; [eauto|]. by apply Nat.ltb_lt.
Qed.

Lemma edit_session_invariant (P : AppState → Prop) state keys :
  (∀ s key, P s → P (handle_edit_input s key).1) →
  (∀ s, P s → P (set_mode Run s)) →
  P state → P (edit_session state keys).
Proof.
  intros Hstep Hrun. revert state.
  induction keys as [|key keys IH]; intros state HP; simpl; [done|].
  specialize (Hstep state key HP).
  destruct (handle_edit_input state key) as [state' [[]|]]; simpl in *; eauto.
Qed.

(** ** Cursor movement *)

(** C5: from a state whose cursor is on the grid (row in [0, 4], column in
    [0, 25]), every state that a sequence of key events leads through
    still has its cursor on the grid (the keys need not even be arrows).
    Up and Down move the row by one and stop at 0 and at [MAX_TASKS - 1];
    Left and Right move the column by one and stop at 0 and at
    [TOTAL_SLOTS - 1]; nothing wraps around. *)
Theorem cursor_stays_in_bounds state keys (n : nat) :
  0 ≤ cursor_row state ≤ 4 → 0 ≤ cursor_col state ≤ 25 →
  (let reached := edit_session state (take n keys) in
   0 ≤ cursor_row reached ≤ 4 ∧ 0 ≤ cursor_col reached ≤ 25) ∧
  (let up := (handle_edit_input state KEY_UP).1 in
   cursor_row up = Z.max 0 (cursor_row state - 1) ∧
   cursor_col up = cursor_col state ∧
   (cursor_row state = 0 → cursor_row up = 0)) ∧
  (let down := (handle_edit_input state KEY_DOWN).1 in
   cursor_row down = Z.min (MAX_TASKS - 1) (cursor_row state + 1) ∧
   cursor_col down = cursor_col state ∧
   (cursor_row state = MAX_TASKS - 1 → cursor_row down = MAX_TASKS - 1)) ∧
  (let left := (handle_edit_input state KEY_LEFT).1 in
   cursor_row left = cursor_row state ∧
   (cursor_col left = Z.max 0 (cursor_col state - 1) ∨ left = state) ∧
   (edit_focus state = FocusSlots →
    is_Some (py_get (tasks state) (cursor_row state)) →
    cursor_col left = Z.max 0 (cursor_col state - 1)) ∧
   (cursor_col state = 0 → cursor_col left = 0)) ∧
  (let right := (handle_edit_input state KEY_RIGHT).1 in
   cursor_row right = cursor_row state ∧
   (cursor_col right = Z.min (TOTAL_SLOTS - 1) (cursor_col state + 1) ∨ right = state) ∧
   (edit_focus state = FocusSlots →
    is_Some (py_get (tasks state) (cursor_row state)) →
    cursor_col right = Z.min (TOTAL_SLOTS - 1) (cursor_col state + 1)) ∧
   (cursor_col state = TOTAL_SLOTS - 1 → cursor_col right = TOTAL_SLOTS - 1)).
Proof.
  intros Hrow Hcol. split; [|split; [|split; [|split]]].
  - assert (Hb : cursor_in_bounds (edit_session state (take n keys))).
    { apply edit_session_invariant.
      - apply handle_cursor_in_bounds.
      - by intros s.
      - unfold cursor_in_bounds. rewrite TOTAL_SLOTS_eq. unfold MAX_TASKS. lia. }
    unfold cursor_in_bounds in Hb. rewrite TOTAL_SLOTS_eq in Hb.
    unfold MAX_TASKS in Hb. simpl. lia.
  - rewrite handle_up. simpl. lia.
  - rewrite handle_down. simpl. lia.
  - simpl. split; [|split; [|split]].
    + handle_cases; done.
    + handle_cases; auto.
    + intros Hf [[k t] Hget]. by rewrite (handle_left _ k t).
    + intros H0. handle_cases; lia.
  - simpl. split; [|split; [|split]].
    + handle_cases; done.
    + handle_cases; auto.
    + intros Hf [[k t] Hget]. by rewrite (handle_right _ k t).
    + intros H25. handle_cases; lia.
Qed.

Lemma cursor_stays_in_bounds_witness :
  cursor_col
    (edit_session (set_edit_focus FocusSlots AppState_init)
       (take 5 [KEY_RIGHT; KEY_RIGHT; KEY_LEFT; KEY_LEFT; KEY_LEFT; KEY_UP])) = 0 ∧
  0 ≤ cursor_row
        (edit_session (set_edit_focus FocusSlots AppState_init)
           (take 5 [KEY_RIGHT; KEY_RIGHT; KEY_LEFT; KEY_LEFT; KEY_LEFT; KEY_UP])) ≤ 4.
Proof.
  split; [reflexivity|].
  apply (cursor_stays_in_bounds (set_edit_focus FocusSlots AppState_init)
           [KEY_RIGHT; KEY_RIGHT; KEY_LEFT; KEY_LEFT; KEY_LEFT; KEY_UP] 5);
    simpl; lia.
Defined.

(** ** Editing a name *)

Lemma py_get_insert (l : list Task) i k t t' :
  py_get l i = Some (k, t) → py_get (<[k:=t']> l) i = Some (k, t').
Proof.
  unfold py_get. rewrite length_insert.
  destruct (py_index (length l) i) as [k'|]; [|done].
  destruct (l !! k') as [x|] eqn:Hk; [|done]. intros [= -> ->].
  rewrite list_lookup_insert_eq; [done|]. by eapply lookup_lt_Some.
Qed.

Lemma set_task_twice k t t' state :
  set_task k t (set_task k t' state) = set_task k t state.
Proof. unfold set_task. simpl. by rewrite list_insert_insert_eq. Qed.

Lemma set_task_same k t state :
  tasks state !! k = Some t → set_task k t state = state.
Proof.
  intros Hk. unfold set_task. rewrite list_insert_id by done. by destruct state.
Qed.

Lemma name_fits_preserved state key :
  Forall name_fits (tasks state) →
  Forall name_fits (tasks (handle_edit_input state key).1).
Proof.
  apply handle_tasks_Forall; unfold name_fits.
  - intros t c. unfold toggle_work. by repeat case_match.
  - intros t c. unfold toggle_rest. by repeat case_match.
  - intros t Ht. simpl. rewrite drop_last_length. lia.
  - intros t c _ Hlt. simpl. rewrite length_app. simpl. lia.
Qed.

Lemma AppState_init_Forall (P : Task → Prop) :
  P (mkTask [] [] []) → Forall P (tasks AppState_init).
Proof. intros HP. simpl. by repeat constructor. Qed.

(** Typing printable characters with the focus on the name: the name
    grows up to the cap and nothing else changes. *)
Lemma typing_printable typed : ∀ state k task,
  edit_focus state = FocusName →
  py_get (tasks state) (cursor_row state) = Some (k, task) →
  Forall printable typed →
  edit_session state typed
  = set_task k
      (set_name (take (15 `max` length (name task)) (name task ++ typed)) task)
      state.
Proof.
  induction typed as [|c typed IH]; intros state k task Hf Hget Hpr; simpl.
  - rewrite app_nil_r, take_ge by lia.
    rewrite set_task_same; [done|]. apply py_get_Some in Hget.
    by destruct task.
  - apply Forall_cons_1 in Hpr as [Hc Hpr].
    rewrite (handle_printable state k task c Hf Hget Hc).
    destruct (Nat.ltb_spec (length (name task)) 15) as [Hlt|Hge].
    + rewrite (IH _ k (set_name (name task ++ [c]) task)); [|done| |done].
      * rewrite set_task_twice. simpl. rewrite length_app. simpl.
        rewrite <- (assoc_L (++)). simpl.
        by replace (15 `max` (length (name task) + 1))%nat
          with (15 `max` length (name task))%nat by lia.
      * simpl. by eapply py_get_insert.
    + rewrite (IH _ k task Hf Hget Hpr).
      replace (15 `max` length (name task))%nat with (length (name task)) by lia.
      by rewrite !take_app_length.
Qed.

(** C6: from the start of the program on, and from any state whose names
    are within the cap, every name is at most 15 long after any sequence of
    keys.  With the focus on the name, a printable character is appended
    when the name is shorter than 15 and ignored otherwise, so that 20
    characters typed into an empty name leave the first 15; backspace
    drops the last character and leaves an empty name empty. *)
Theorem name_length_capped keys typed c :
  Forall name_fits (tasks (edit_session AppState_init keys)) ∧
  (∀ state,
     Forall name_fits (tasks state) →
     Forall name_fits (tasks (edit_session state keys))) ∧
  (∀ state k task,
     edit_focus state = FocusName →
     py_get (tasks state) (cursor_row state) = Some (k, task) →
     (printable c →
        handle_edit_input state c
        = (if (length (name task) <? 15)%nat
           then set_task k (set_name (name task ++ [c]) task) state
           else state, Return false)) ∧
     (Forall printable typed → name_fits task →
        edit_session state typed
        = set_task k (set_name (take 15 (name task ++ typed)) task) state) ∧
     (Forall printable typed → name task = [] → length typed = 20%nat →
        tasks (edit_session state typed) !! k
          = Some (set_name (take 15 typed) task) ∧
        length (take 15 typed) = 15%nat) ∧
     (∀ key, key = KEY_BACKSPACE ∨ key = 127 ∨ key = 8 →
        handle_edit_input state key
        = (set_task k (set_name (drop_last (name task)) task) state,
           Return false))) ∧
  drop_last (@nil Z) = [] ∧
  (∀ s, drop_last (s ++ [c]) = s).
Proof.
  split; [|split; [|split; [|split]]].
  - apply (edit_session_invariant (λ s, Forall name_fits (tasks s))).
    + intros s key. apply name_fits_preserved.
    + done.
    + apply AppState_init_Forall. unfold name_fits. simpl. lia.
  - intros state Hfit.
    apply (edit_session_invariant (λ s, Forall name_fits (tasks s))); [|done..].
    intros s key. apply name_fits_preserved.
  - intros state k task Hf Hget.
    assert (Hsession : Forall printable typed → name_fits task →
      edit_session state typed
      = set_task k (set_name (take 15 (name task ++ typed)) task) state).
    { intros Htyped Htask.
      rewrite (typing_printable typed state k task Hf Hget Htyped).
      unfold name_fits in Htask.
      by replace (15 `max` length (name task))%nat with 15%nat by lia. }
    split; [|split; [|split]].
    + intros Hc. by apply handle_printable.
    + exact Hsession.
    + intros Htyped Hempty Hlen.
      rewrite Hsession, Hempty; [|done|unfold name_fits; rewrite Hempty; simpl; lia].
      simpl. split.
      * apply list_lookup_insert_eq. apply py_get_Some in Hget.
        by eapply lookup_lt_Some.
      * rewrite length_take. lia.
    + intros key Hkey. by apply handle_backspace.
  - done.
  - intros s. apply drop_last_snoc.
Qed.

Lemma name_length_capped_witness :
  tasks (edit_session AppState_init (replicate 20 65)) !! 0%nat
  = Some (mkTask (replicate 15 65) [] []).
Proof.
  assert (Hpr : Forall printable (replicate 20 65)).
  { repeat constructor; unfold printable; lia. }
  destruct (name_length_capped [] (replicate 20 65) 65) as (_ & _ & Hname & _).
  destruct (Hname AppState_init 0%nat (mkTask [] [] []) eq_refl eq_refl)
    as (_ & _ & H20 & _).
  destruct (H20 Hpr eq_refl eq_refl) as [H _]. exact H.
Defined.

(** ** Toggling slots *)

Lemma slots_disjoint_alt task :
  slots_disjoint task ↔ ∀ x, x ∈ slots task → x ∈ rest_slots task → False.
Proof.
  unfold slots_disjoint. rewrite Forall_forall. split.
  - intros H x Hx Hr. by apply (H x Hx).
  - intros H x Hx Hr. by apply (H x Hx).
Qed.

Lemma NoDup_snoc (l : list Z) x : NoDup l → x ∉ l → NoDup (l ++ [x]).
Proof.
  intros Hl Hx. apply NoDup_app. split; [done|]. split.
  - intros y Hy ->%list_elem_of_singleton. done.
  - apply NoDup_singleton.
Qed.

Lemma toggle_work_ok task s :
  slots_unique task → slots_disjoint task →
  slots_unique (toggle_work task s) ∧ slots_disjoint (toggle_work task s).
Proof.
  intros [Hw Hr]. rewrite !slots_disjoint_alt. intros Hd.
  unfold toggle_work, slots_unique.
  case_bool_decide as Hsw; [|case_bool_decide as Hsr]; simpl.
  - split; [split; [by apply py_remove_NoDup|done]|].
    intros x Hx%py_remove_subseteq. eauto.
  - split; [split; [by apply NoDup_snoc|by apply py_remove_NoDup]|].
    intros x [Hx| ->%list_elem_of_singleton]%elem_of_app.
    + intros Hx'%py_remove_subseteq. eauto.
    + rewrite elem_of_py_remove by done. naive_solver.
  - split; [split; [by apply NoDup_snoc|done]|].
    intros x [Hx| ->%list_elem_of_singleton]%elem_of_app; eauto.
Qed.

Lemma toggle_rest_ok task s :
  slots_unique task → slots_disjoint task →
  slots_unique (toggle_rest task s) ∧ slots_disjoint (toggle_rest task s).
Proof.
  intros [Hw Hr]. rewrite !slots_disjoint_alt. intros Hd.
  unfold toggle_rest, slots_unique.
  case_bool_decide as Hsr; [|case_bool_decide as Hsw]; simpl.
  - split; [split; [done|by apply py_remove_NoDup]|].
    intros x Hx Hx'%py_remove_subseteq. eauto.
  - split; [split; [by apply py_remove_NoDup|by apply NoDup_snoc]|].
    intros x Hx [Hx'| ->%list_elem_of_singleton]%elem_of_app.
    + apply py_remove_subseteq in Hx. eauto.
    + revert Hx. rewrite elem_of_py_remove by done. naive_solver.
  - split; [split; [done|by apply NoDup_snoc]|].
    intros x Hx [Hx'| ->%list_elem_of_singleton]%elem_of_app; eauto.
Qed.

(** Every state that the edit session reaches from the start of the
    program keeps, for every task, two duplicate-free and disjoint lists. *)
Lemma reachable_slots_ok keys :
  Forall (λ t, slots_unique t ∧ slots_disjoint t)
    (tasks (edit_session AppState_init keys)).
Proof.
  apply (edit_session_invariant
           (λ s, Forall (λ t, slots_unique t ∧ slots_disjoint t) (tasks s))).
  - intros s key. apply handle_tasks_Forall.
    + intros t c [Hu Hd]. by apply toggle_work_ok.
    + intros t c [Hu Hd]. by apply toggle_rest_ok.
    + by intros t.
    + by intros t c ? _.
  - done.
  - apply AppState_init_Forall. split; [split; constructor|constructor].
Qed.

Lemma toggle_work_twice_slots task s :
  NoDup (slots task) →
  slots (toggle_work (toggle_work task s) s)
  = if bool_decide (s ∈ slots task) then py_remove s (slots task) ++ [s]
    else slots task.
Proof.
  intros Hw. unfold toggle_work at 2.
  case_bool_decide as Hsw; [|case_bool_decide as Hsr].
  - assert (Hgone : s ∉ py_remove s (slots task))
      by (rewrite elem_of_py_remove by done; naive_solver).
    unfold toggle_work. simpl. rewrite bool_decide_false by done.
    by case_bool_decide.
  - unfold toggle_work. simpl.
    rewrite bool_decide_true by (apply elem_of_app; right; by apply list_elem_of_singleton).
    simpl. by apply py_remove_app_fresh.
  - unfold toggle_work. simpl.
    rewrite bool_decide_true by (apply elem_of_app; right; by apply list_elem_of_singleton).
    simpl. by apply py_remove_app_fresh.
Qed.

(** ** Keys outside the tables *)

Lemma handle_unrecognized state key :
  is_Some (py_get (tasks state) (cursor_row state)) →
  recognized (edit_focus state) key = false →
  handle_edit_input state key = (state, Return false).
Proof.
  intros [[k task] Hget] Hrec. unfold recognized in Hrec.
  unfold handle_edit_input. rewrite Hget.
  destruct (edit_focus state);
    rewrite !orb_false_iff in Hrec; destruct_and!;
    unfold ord_tab, ord_newline in *;
    repeat match goal with H : _ = false |- _ => rewrite H; clear H end;
    done.
Qed.

Lemma handle_returns_true state key :
  (handle_edit_input state key).2 = Return true ↔ key = KEY_F5.
Proof.
  split.
  - destruct (Z.eqb_spec key KEY_F5) as [|Hne]; [done|].
    apply Z.eqb_neq in Hne. unfold handle_edit_input. rewrite Hne.
    repeat case_match; done.
  - intros ->. done.
Qed.

(** C9, as amended: in a state whose cursor row selects a task, a key that
    is in neither table for the current focus leaves the whole state as it
    is and makes the handler return false; the handler returns true for F5
    and for no other key.  Outside the table for the name focus are, for
    instance, Left and Right, but not Space, [r] or [R], which are printable
    characters; outside the table for the slots focus are Enter, Backspace
    and every printable character other than Space, [r] and [R]. *)
Theorem unrecognized_key_ignored state key :
  is_Some (py_get (tasks state) (cursor_row state)) →
  recognized (edit_focus state) key = false →
  handle_edit_input state key = (state, Return false) ∧
  (∀ s c, (handle_edit_input s c).2 = Return true ↔ c = KEY_F5) ∧
  recognized FocusName KEY_LEFT = false ∧
  recognized FocusName KEY_RIGHT = false ∧
  recognized FocusName ord_space = true ∧
  recognized FocusName ord_r = true ∧
  recognized FocusName ord_R = true ∧
  Forall (λ c, recognized FocusSlots c = false)
    [ord_newline; 13; KEY_ENTER; KEY_BACKSPACE; 127; 8] ∧
  (∀ c, printable c → c ≠ ord_space → c ≠ ord_r → c ≠ ord_R →
     recognized FocusSlots c = false).
Proof.
  intros Hrow Hrec. split; [by apply handle_unrecognized|].
  split; [apply handle_returns_true|].
  repeat (split; [reflexivity|]).
  split; [by repeat constructor|].
  intros c Hc Hs Hr HR. unfold printable in Hc. unfold recognized.
  unfold KEY_F5, ord_tab, KEY_UP, KEY_DOWN, KEY_LEFT, KEY_RIGHT in *.
  repeat match goal with
         | |- context [?a =? ?b] => destruct (Z.eqb_spec a b); [lia|]
         end.
  done.
Qed.

Lemma unrecognized_key_ignored_witness :
  handle_edit_input AppState_init KEY_LEFT = (AppState_init, Return false).
Proof.
  apply (unrecognized_key_ignored AppState_init KEY_LEFT).
  - simpl. eexists. reflexivity.
  - reflexivity.
Defined.

(** C9 as stated fails for Space (and likewise for [r] and [R]) with the
    focus on the name: the key is a printable character there and is
    appended to the name.  It also fails in a state whose cursor row
    selects no task, where the handler raises before it looks at a key such
    as Left. *)
Lemma space_in_name_counterexample :
  edit_focus AppState_init = FocusName ∧
  handle_edit_input AppState_init ord_space
    = (set_task 0 (mkTask [32] [] []) AppState_init, Return false) ∧
  (handle_edit_input AppState_init ord_space).1 ≠ AppState_init ∧
  (handle_edit_input AppState_init ord_R).1 ≠ AppState_init ∧
  (handle_edit_input (set_cursor_row 7 AppState_init) KEY_LEFT).2 = IndexError.
Proof.
  split; [reflexivity|]. split; [reflexivity|].
  split; [simpl; discriminate|]. split; [simpl; discriminate|]. reflexivity.
Qed.

(** * Properties of the main loop *)

Section MainProperties.
Variable clock : nat → datetime.
Variable keyboard : nat → Z.

Ltac io_unfold :=
  unfold read_current_slot, read_elapsed_time, now, getch, raise, beep,
    sleep, emit, mbind, io_bind, mret, io_ret in *.

(** Drawing reads the clock only: it emits nothing and polls no key. *)
Lemma draw_interface_world state w :
  trace (draw_interface clock state w).2 = trace w ∧
  key_polls (draw_interface clock state w).2 = key_polls w.
Proof.
  unfold draw_interface. io_unfold.
  repeat case_match; simplify_eq/=; done.
Qed.

(** In a well-formed state every row and the task under the cursor exist,
so drawing does not raise. *)
Lemma draw_interface_succeeds state w :
  well_formed state → is_Some (draw_interface clock state w).1.
Proof.
  intros Hwf.
  destruct (well_formed_row state Hwf) as [[k task] Hget].
  destruct Hwf as [Hlen _].
  assert (Hrows : ∀ current_slot is_running,
            is_Some (mapM (draw_row state current_slot is_running)
                       (seqZ 0 MAX_TASKS))).
  { intros current_slot is_running. apply mapM_is_Some, Forall_seqZ.
    intros row_idx Hidx. simpl. unfold draw_row.
    destruct (py_get_in_range (tasks state) row_idx) as [x Hx]; [lia|].
    by rewrite Hx. }
  unfold draw_interface. io_unfold. rewrite Hget.
  destruct (bool_decide (mode state = Run)).
  - destruct (Hrows (get_current_slot (clock (clock_reads w))) true) as [rows ->].
    by repeat case_match.
  - destruct (Hrows (-1) false) as [rows ->].
    by repeat case_match.
Qed.

Lemma loop_body_no_raise state last_minute w :
  well_formed state →
  is_Some (loop_body clock keyboard state last_minute w).1.
Proof.
  intros Hwf. unfold loop_body. unfold mbind at 1, io_bind at 1.
  destruct (draw_interface_succeeds state w Hwf) as [screen Hscreen].
  destruct (draw_interface clock state w) as [[screen'|] w1]; [|done].
  unfold run_checks. io_unfold.
  repeat case_match; simplify_eq/=; try done;
    match goal with
    | H : handle_edit_input ?s ?k = (_, IndexError) |- _ =>
        pose proof (handle_no_IndexError s k Hwf) as Hno; by rewrite H in Hno
    end.
Qed.

Lemma loop_body_invariant (P : AppState → Prop) state last_minute w state' lm' w' :
  (∀ s key, P s → P (handle_edit_input s key).1) →
  (∀ s, P s → P (set_mode Run s)) →
  P state →
  loop_body clock keyboard state last_minute w = (Some (Continue state' lm'), w') →
  P state'.
Proof.
  intros Hstep Hrun HP. unfold loop_body.
  unfold mbind at 1, io_bind at 1.
  destruct (draw_interface clock state w) as [[screen|] w1]; [|done].
  unfold run_checks. io_unfold.
  intros Hbody.
  repeat case_match; simplify_eq/=; try done;
    match goal with
    | H : handle_edit_input ?s ?k = (?s', _) |- _ =>
        specialize (Hstep s k HP); rewrite H in Hstep; simpl in Hstep; eauto
    end.
Qed.

Lemma main_loop_invariant (P : AppState → Prop) fuel :
  (∀ s key, P s → P (handle_edit_input s key).1) →
  (∀ s, P s → P (set_mode Run s)) →
  ∀ state last_minute w state' lm' w',
  P state →
  main_loop clock keyboard fuel state last_minute w
    = (Some (Continue state' lm'), w') →
  P state'.
Proof.
  intros Hstep Hrun.
  induction fuel as [|fuel IH]; intros state lm w state' lm' w' HP; simpl.
  - unfold mret, io_ret. by intros [= <- <- <-].
  - unfold mbind at 1, io_bind at 1.
    destruct (loop_body clock keyboard state lm w) as [[[s1 lm1|]|] w1] eqn:Hbody;
      [|done..].
    apply IH. by eapply loop_body_invariant.
Qed.

(** Whatever the clock and the keyboard do, IndexError never escapes the
loop. *)
Lemma main_loop_no_raise fuel : ∀ state last_minute w,
  well_formed state →
  is_Some (main_loop clock keyboard fuel state last_minute w).1.
Proof.
  induction fuel as [|fuel IH]; intros state lm w Hwf; simpl; [done|].
  unfold mbind at 1, io_bind at 1.
  destruct (loop_body_no_raise state lm w Hwf) as [c Hc].
  destruct (loop_body clock keyboard state lm w) as [[[s1 lm1|]|] w1] eqn:Hbody;
    [|done..].
  apply IH.
  by apply (loop_body_invariant well_formed _ _ _ _ _ _
              handle_well_formed (λ s H, H) Hwf Hbody).
Qed.

Lemma AppState_init_well_formed : well_formed AppState_init.
Proof.
  split; [done|]. unfold cursor_in_bounds. rewrite TOTAL_SLOTS_eq.
  unfold MAX_TASKS. simpl. lia.
Qed.

Lemma main_never_raises fuel : is_Some (main clock keyboard fuel).1.
Proof. apply main_loop_no_raise, AppState_init_well_formed. Qed.

(** Whatever the clock and the keyboard do, every state that the program
reaches is well formed, with names within the cap and duplicate-free,
disjoint slot lists. *)
Lemma main_reaches_good_states fuel state last_minute w :
  main clock keyboard fuel = (Some (Continue state last_minute), w) →
  well_formed state ∧
  Forall (λ t, name_fits t ∧ slots_unique t ∧ slots_disjoint t) (tasks state).
Proof.
  unfold main.
  apply (main_loop_invariant
           (λ s, well_formed s ∧
                 Forall (λ t, name_fits t ∧ slots_unique t ∧ slots_disjoint t)
                   (tasks s))).
  - intros s key [Hb Hts]. split; [by apply handle_well_formed|].
    revert Hts. apply handle_tasks_Forall.
    + intros t c (Hn & Hu & Hd). split; [|by apply toggle_work_ok].
      unfold name_fits, toggle_work in *. by repeat case_match.
    + intros t c (Hn & Hu & Hd). split; [|by apply toggle_rest_ok].
      unfold name_fits, toggle_rest in *. by repeat case_match.
    + intros t (Hn & Hu & Hd). split; [|done]. unfold name_fits in *. simpl.
      rewrite drop_last_length. lia.
    + intros t c (Hn & Hu & Hd) Hlt. split; [|done]. unfold name_fits. simpl.
      rewrite length_app. simpl. lia.
  - by intros s.
  - split; [apply AppState_init_well_formed|].
    apply AppState_init_Forall. unfold name_fits. simpl.
    repeat split; try constructor. lia.
Qed.

(** Once running, the state is never changed again. *)
Lemma loop_body_run state last_minute w state' lm' w' :
  mode state = Run →
  loop_body clock keyboard state last_minute w = (Some (Continue state' lm'), w') →
  state' = state.
Proof.
  intros Hrun. unfold loop_body. unfold mbind at 1, io_bind at 1.
  destruct (draw_interface clock state w) as [[screen|] w1]; [|done].
  rewrite (bool_decide_true (mode state = Run)) by done.
  rewrite (bool_decide_false (mode state = Edit)) by (by rewrite Hrun).
  unfold run_checks. io_unfold. intros Hbody.
  repeat case_match; simplify_eq/=; done.
Qed.

Lemma main_loop_run fuel : ∀ state last_minute w state' lm' w',
  mode state = Run →
  main_loop clock keyboard fuel state last_minute w
    = (Some (Continue state' lm'), w') →
  state' = state.
Proof.
  induction fuel as [|fuel IH]; intros state lm w state' lm' w' Hrun; simpl.
  - unfold mret, io_ret. by intros [= <- <- <-].
  - unfold mbind at 1, io_bind at 1.
    destruct (loop_body clock keyboard state lm w) as [[[s1 lm1|]|] w1] eqn:Hbody;
      [|done..].
    apply loop_body_run in Hbody as ->; [|done]. by apply IH.
Qed.

(** One round in edit mode: the key polled is handed to the handler,
unless it is the timeout value. *)
Lemma loop_body_edit state last_minute w :
  mode state = Edit → well_formed state →
  ∃ w',
    key_polls w' = S (key_polls w) ∧
    loop_body clock keyboard state last_minute w
    = (Some (let key := keyboard (key_polls w) in
             if key =? -1 then Continue state last_minute
             else match handle_edit_input state key with
                  | (state', Return true) => Continue (set_mode Run state') (-1)
                  | (state', _) => Continue state' last_minute
                  end), w').
Proof.
  intros Hedit Hwf. unfold loop_body. unfold mbind at 1, io_bind at 1.
  destruct (draw_interface_succeeds state w Hwf) as [screen Hscreen].
  destruct (draw_interface_world state w) as [_ Hkp].
  destruct (draw_interface clock state w) as [[screen'|] w1]; [|done].
  simpl in Hkp.
  rewrite (bool_decide_false (mode state = Run)) by (by rewrite Hedit).
  rewrite (bool_decide_true (mode state = Edit)) by done.
  io_unfold. simpl. rewrite Hkp.
  pose proof (handle_no_IndexError state (keyboard (key_polls w)) Hwf) as Hno.
  eexists. split; [|repeat case_match; simplify_eq/=; done]. done.
Qed.

Lemma handle_mode state key :
  mode (handle_edit_input state key).1 = mode state.
Proof. handle_cases; done. Qed.

Lemma handle_timeout state :
  well_formed state → handle_edit_input state (-1) = (state, Return false).
Proof.
  intros Hwf. apply handle_unrecognized; [by apply well_formed_row|].
  by destruct (edit_focus state).
Qed.

(** The states of the main loop, while it goes on, are those of
[edit_session] on the keys polled so far. *)
Lemma main_loop_edit_session fuel : ∀ state last_minute w state' lm' w',
  mode state = Edit → well_formed state →
  main_loop clock keyboard fuel state last_minute w
    = (Some (Continue state' lm'), w') →
  state' = edit_session state (keyboard <$> seq (key_polls w) fuel).
Proof.
  induction fuel as [|fuel IH]; intros state lm w state' lm' w' Hedit Hwf; simpl.
  - unfold mret, io_ret. by intros [= <- <- <-].
  - unfold mbind at 1, io_bind at 1.
    destruct (loop_body_edit state lm w Hedit Hwf) as (w1 & Hpolls & ->).
    rewrite <- Hpolls. simpl.
    destruct (Z.eqb_spec (keyboard (key_polls w)) (-1)) as [Hkey|Hkey].
    + rewrite Hkey, handle_timeout by done. by apply IH.
    + pose proof (handle_well_formed state (keyboard (key_polls w)) Hwf) as Hwf'.
      pose proof (handle_mode state (keyboard (key_polls w))) as Hmode.
      pose proof (handle_no_IndexError state (keyboard (key_polls w)) Hwf) as Hno.
      destruct (handle_edit_input state (keyboard (key_polls w)))
        as [s1 [[]|]]; simpl in *.
      * intros Hrun. by apply main_loop_run in Hrun.
      * apply IH; [congruence|done].
      * done.
Qed.

(** C3, as amended: in run mode, on the round of the loop in which the
    slot read from the clock is -1 or at least [TOTAL_SLOTS], the loop
    emits, after the render of that round and after the per-minute alert
    when the minute read differs from the last alerted one, exactly five
    alerts, each followed by the same pause; so the round emits five or six
    alerts.  The loop ends in that round without polling a key: whatever
    the number of further rounds allowed, nothing more is emitted, in
    particular no render. *)
Theorem day_end_round state last_minute w screen w1 :
  mode state = Run →
  draw_interface clock state w = (Some screen, w1) →
  let t := clock (clock_reads w1) in
  let current_slot := get_current_slot (clock (S (clock_reads w1))) in
  current_slot = -1 ∨ TOTAL_SLOTS ≤ current_slot →
  let minute_alert := if bool_decide (minute t ≠ last_minute) then [Beep] else [] in
  let burst := [Beep; Sleep 300; Beep; Sleep 300; Beep; Sleep 300;
                Beep; Sleep 300; Beep; Sleep 300] in
  let r := loop_body clock keyboard state last_minute w in
  r.1 = Some Break ∧
  trace r.2 = trace w ++ [Refresh screen] ++ minute_alert ++ burst ∧
  count_beeps burst = 5%nat ∧
  count_beeps (minute_alert ++ burst)
    = (if bool_decide (minute t ≠ last_minute) then 6%nat else 5%nat) ∧
  count_refreshes (minute_alert ++ burst) = 0%nat ∧
  key_polls r.2 = key_polls w ∧
  ∀ fuel, main_loop clock keyboard (S fuel) state last_minute w = r.
Proof.
  intros Hrun Hdraw t current_slot Hend minute_alert burst r.
  assert (Hday : day_end current_slot = true).
  { unfold day_end. destruct Hend as [-> | Hge]; [done|].
    destruct (Z.geb_spec current_slot TOTAL_SLOTS); [|lia]. apply orb_true_r. }
  destruct (draw_interface_world state w) as [Htr Hkp].
  rewrite Hdraw in Htr, Hkp. simpl in Htr, Hkp.
  assert (Hr : r = (Some Break,
                    mkWorld (S (S (clock_reads w1))) (key_polls w)
                      (trace w ++ [Refresh screen] ++ minute_alert ++ burst))).
  { subst r. unfold loop_body. unfold mbind at 1, io_bind at 1. rewrite Hdraw.
    rewrite (bool_decide_true (mode state = Run)) by done.
    unfold run_checks. io_unfold. simpl.
    fold t. fold current_slot. subst minute_alert.
    case_bool_decide; simpl; rewrite Hday; simpl;
      rewrite Htr, Hkp, <- ?(assoc_L (++)); done. }
  split; [by rewrite Hr|]. split; [by rewrite Hr|]. split; [done|].
  split; [subst minute_alert; by case_bool_decide|].
  split; [subst minute_alert; by case_bool_decide|].
  split; [by rewrite Hr|].
  intros fuel. simpl. unfold mbind at 1, io_bind at 1. fold r. by rewrite Hr.
Qed.
End MainProperties.

Lemma day_end_round_witness :
  (loop_body (clock_at (DateTime 21 0 0)) no_keys
     (set_mode Run AppState_init) 0 world_init).1 = Some Break ∧
  count_beeps
    (trace (loop_body (clock_at (DateTime 21 0 0)) no_keys
              (set_mode Run AppState_init) 0 world_init).2) = 5%nat.
Proof.
  assert (Hdraw : ∃ screen w1,
    draw_interface (clock_at (DateTime 21 0 0)) (set_mode Run AppState_init)
      world_init = (Some screen, w1)).
  { eexists _, _. vm_compute. reflexivity. }
  destruct Hdraw as (screen & w1 & Hdraw).
  destruct (day_end_round (clock_at (DateTime 21 0 0)) no_keys
              (set_mode Run AppState_init) 0 world_init screen w1
              eq_refl Hdraw (or_introl eq_refl))
    as (Hbreak & Htrace & _ & Hcount & _).
  split; [exact Hbreak|]. rewrite Htrace. exact Hcount.
Defined.

(** C3 as stated fails whenever the minute read in the round of the day
    end differs from the last alerted minute, as it does when 21:00 follows
    a round in minute 59, and when the run is started outside the window:
    the round then emits six alerts, the per-minute one and the five final
    ones. *)
Lemma six_alerts_counterexample :
  let rollover :=
    loop_body (clock_at (DateTime 21 0 0)) no_keys
      (set_mode Run AppState_init) 59 world_init in
  let late_start := main (clock_at (DateTime 22 0 5)) F5_then_no_keys 2 in
  get_current_slot (DateTime 21 0 0) = -1 ∧
  rollover.1 = Some Break ∧
  count_beeps (trace rollover.2) = 6%nat ∧
  count_refreshes (trace rollover.2) = 1%nat ∧
  late_start.1 = Some Break ∧
  count_beeps (trace late_start.2) = 6%nat ∧
  count_refreshes (trace late_start.2) = 2%nat.
Proof. vm_compute. repeat split. Qed.

(** * Further properties of the time grid *)

(** X1: slot [k] is exactly the half hour that starts [k] half hours after
    08:00, and the slot never goes back while the clock moves on inside the
    window. *)
Theorem slot_is_half_hour now later k :
  valid_time now → valid_time later → 0 ≤ k < TOTAL_SLOTS →
  (get_current_slot now = k ↔
     hms 8 0 0 + 1800 * k ≤ seconds_of_day now < hms 8 0 0 + 1800 * (k + 1)) ∧
  (hms 8 0 0 ≤ seconds_of_day now → seconds_of_day now ≤ seconds_of_day later →
   seconds_of_day later < hms 21 0 0 →
   get_current_slot now ≤ get_current_slot later).
Proof.
  intros Hv Hv' Hk. split; [split|].
  - intros Hslot.
    destruct (decide (START_HOUR ≤ hour now < END_HOUR)) as [Hin|Hout].
    + rewrite get_current_slot_inside in Hslot by done. time_arith.
    + rewrite get_current_slot_outside in Hslot by lia. lia.
  - intros Hint. rewrite get_current_slot_inside by time_arith. time_arith.
  - intros H8 Hle H21.
    rewrite !get_current_slot_inside by time_arith. time_arith.
Qed.

Lemma slot_is_half_hour_witness :
  get_current_slot (DateTime 13 29 59) = 10 ∧
  get_current_slot (DateTime 13 29 59) ≤ get_current_slot (DateTime 13 30 0).
Proof.
  assert (Hv1 : valid_time (DateTime 13 29 59)) by (unfold valid_time; simpl; lia).
  assert (Hv2 : valid_time (DateTime 13 30 0)) by (unfold valid_time; simpl; lia).
  assert (Hk : 0 ≤ 10 < TOTAL_SLOTS) by (rewrite TOTAL_SLOTS_eq; lia).
  destruct (slot_is_half_hour (DateTime 13 29 59) (DateTime 13 30 0) 10 Hv1 Hv2 Hk)
    as [Hiff Hmono].
  split.
  - apply Hiff. unfold seconds_of_day, hms. simpl. lia.
  - apply Hmono; unfold seconds_of_day, hms; simpl; lia.
Defined.

(** X2: the two readouts agree: inside the window the current slot is twice
    the hours shown plus one when the tick digit is 3.  The tick digit is
    always 0 or 3, and the hours shown lie in [0, 12] inside the window and
    never exceed 15. *)
Theorem elapsed_agrees_with_slot now :
  valid_time now →
  ((get_elapsed_time now).2 = 0 ∨ (get_elapsed_time now).2 = 3) ∧
  0 ≤ (get_elapsed_time now).1 ≤ 15 ∧
  (in_window now →
     get_current_slot now
       = 2 * (get_elapsed_time now).1 + (get_elapsed_time now).2 `div` 3 ∧
     0 ≤ (get_elapsed_time now).1 ≤ 12).
Proof.
  intros Hv. unfold in_window.
  destruct (decide (hour now < START_HOUR)) as [Hlt|Hge].
  - rewrite get_elapsed_time_before by done. simpl.
    split; [by left|]. split; [lia|]. lia.
  - rewrite get_elapsed_time_from_start by time_arith. simpl.
    split; [destruct (30 <=? minute now); auto|].
    split; [time_arith|].
    intros Hin. rewrite get_current_slot_inside by done.
    destruct (Z.leb_spec 30 (minute now)); time_arith.
Qed.

Lemma elapsed_agrees_with_slot_witness :
  get_current_slot (DateTime 9 47 0)
  = 2 * (get_elapsed_time (DateTime 9 47 0)).1
    + (get_elapsed_time (DateTime 9 47 0)).2 `div` 3.
Proof.
  assert (Hv : valid_time (DateTime 9 47 0)) by (unfold valid_time; simpl; lia).
  destruct (elapsed_agrees_with_slot (DateTime 9 47 0) Hv) as (_ & _ & Hin).
  apply Hin. unfold in_window, START_HOUR, END_HOUR. simpl. lia.
Defined.

(** * Further properties of the bar formatters *)

Lemma bar_length char :
  length (foldl (bar_step char) [] (seqZ 0 TOTAL_SLOTS)) = 77%nat.
Proof.
  rewrite foldl_bar_step, app_nil_l.
  change (seqZ 0 TOTAL_SLOTS) with (seqZ 0 (Z.of_nat 25) ++ [25]).
  rewrite bind_app, length_app, bar_chunks_length by (rewrite TOTAL_SLOTS_eq; lia).
  reflexivity.
Qed.

Lemma bar_ext (f g : Z → Z) l :
  Forall (λ i, f i = g i) l → l ≫= bar_chunk f = l ≫= bar_chunk g.
Proof.
  induction 1 as [|i l Hi Hl IH]; [done|].
  rewrite !bind_cons, IH. unfold bar_chunk. by rewrite Hi.
Qed.

(** X3: both bars are 77 code points long whatever they show: three per
    slot, a dot after every slot but the last, and nothing after the last
    slot's two glyphs. *)
Theorem bars_have_fixed_layout slots rest_slots current_slot is_running i :
  0 ≤ i < TOTAL_SLOTS - 1 →
  let slot_bar := format_slot_bar slots rest_slots current_slot is_running in
  let header := format_header_bar current_slot is_running in
  length slot_bar = 77%nat ∧ length header = 77%nat ∧
  slot_bar !! Z.to_nat (3 * i + 2) = Some DOT ∧
  header !! Z.to_nat (3 * i + 2) = Some DOT ∧
  slot_bar !! 77%nat = None ∧ header !! 77%nat = None ∧
  (∀ j, 0 ≤ j < TOTAL_SLOTS →
     slot_bar !! Z.to_nat (3 * j) ≠ Some DOT ∧
     slot_bar !! Z.to_nat (3 * j + 1) ≠ Some DOT).
Proof.
  intros Hi slot_bar header.
  assert (Hls : length slot_bar = 77%nat) by apply bar_length.
  assert (Hlh : length header = 77%nat) by apply bar_length.
  assert (Hlt : (i <? TOTAL_SLOTS - 1) = true) by (apply Z.ltb_lt; lia).
  split; [done|]. split; [done|].
  split; [|split; [|split; [|split]]].
  - destruct (bar_layout (slot_bar_char slots rest_slots current_slot is_running) i)
      as (_ & _ & Hdot); [lia|]. by rewrite Hlt in Hdot.
  - destruct (bar_layout (header_bar_char current_slot is_running) i)
      as (_ & _ & Hdot); [lia|]. by rewrite Hlt in Hdot.
  - apply lookup_ge_None. lia.
  - apply lookup_ge_None. lia.
  - intros j Hj.
    destruct (bar_layout (slot_bar_char slots rest_slots current_slot is_running) j Hj)
      as (H0 & H1 & _).
    fold (format_slot_bar slots rest_slots current_slot is_running) in H0, H1.
    fold slot_bar in H0, H1. rewrite H0, H1.
    assert (slot_bar_char slots rest_slots current_slot is_running j ≠ DOT).
    { unfold slot_bar_char. repeat case_match; done. }
    split; congruence.
Qed.

Lemma bars_have_fixed_layout_witness :
  length (format_slot_bar [3; 4] [9] 4 true) = 77%nat ∧
  format_header_bar 4 true !! 74%nat = Some DOT.
Proof.
  destruct (bars_have_fixed_layout [3; 4] [9] 4 true 24
              ltac:(rewrite TOTAL_SLOTS_eq; lia))
    as (Hlen & _ & _ & Hdot & _).
  split; [exact Hlen|exact Hdot].
Defined.

(** X4: in the header bar slot [i] is drawn, at positions [3i] and [3i+1],
    filled, current or empty as [i] is below, at or above the current slot
    while running, and empty while editing.  A running header outside the
    window (slot -1) is the editing header, and the bar of a task that
    works in every slot and never rests is the header bar. *)
Theorem header_bar_glyph_rule current_slot is_running i :
  0 ≤ i < TOTAL_SLOTS →
  let header := format_header_bar current_slot is_running in
  (∃ glyph, header !! Z.to_nat (3 * i) = Some glyph ∧
            header !! Z.to_nat (3 * i + 1) = Some glyph ∧
     (is_running = true → i < current_slot → glyph = FILLED) ∧
     (is_running = true → i = current_slot → glyph = CURRENT) ∧
     (is_running = true → i > current_slot → glyph = EMPTY) ∧
     (is_running = false → glyph = EMPTY)) ∧
  format_header_bar (-1) true = format_header_bar current_slot false ∧
  (∀ slots,
     (∀ j, 0 ≤ j < TOTAL_SLOTS → j ∈ slots) →
     format_slot_bar slots [] current_slot is_running = header).
Proof.
  intros Hi header. split; [|split].
  - exists (header_bar_char current_slot is_running i).
    destruct (bar_layout (header_bar_char current_slot is_running) i Hi)
      as (H0 & H1 & _).
    split; [exact H0|]. split; [exact H1|].
    unfold header_bar_char. repeat split.
    + intros -> Hlt. by destruct (Z.ltb_spec i current_slot); [|lia].
    + intros -> Heq. destruct (Z.ltb_spec i current_slot); [lia|].
      by destruct (Z.eqb_spec i current_slot).
    + intros -> Hgt. destruct (Z.ltb_spec i current_slot); [lia|].
      by destruct (Z.eqb_spec i current_slot); [lia|].
    + by intros ->.
  - reflexivity.
  - intros slots Hall. subst header.
    unfold format_slot_bar, format_header_bar. rewrite !foldl_bar_step.
    f_equal. apply bar_ext, Forall_seqZ. intros j Hj.
    apply slot_bar_char_work; [apply not_elem_of_nil|]. apply Hall. lia.
Qed.

Lemma header_bar_glyph_rule_witness :
  format_header_bar 4 true !! 9%nat = Some FILLED ∧
  format_header_bar 4 true !! 12%nat = Some CURRENT.
Proof.
  split.
  - destruct (header_bar_glyph_rule 4 true 3 ltac:(rewrite TOTAL_SLOTS_eq; lia))
      as ((g & H0 & _ & Hfilled & _) & _).
    change (Z.to_nat (3 * 3)) with 9%nat in H0. rewrite H0. f_equal.
    apply Hfilled; [reflexivity|lia].
  - destruct (header_bar_glyph_rule 4 true 4 ltac:(rewrite TOTAL_SLOTS_eq; lia))
      as ((g & H0 & _ & _ & Hcur & _) & _).
    change (Z.to_nat (3 * 4)) with 12%nat in H0. rewrite H0. f_equal.
    apply Hcur; reflexivity.
Defined.

(** X5: a running header inside the window shows as many filled slots as
    the day has slots behind it, one current slot and the rest empty: with
    two glyphs per slot, [2 * current_slot] filled, 2 current and
    [2 * (25 - current_slot)] empty glyphs. *)
Theorem header_bar_progress current_slot :
  0 ≤ current_slot < TOTAL_SLOTS →
  count_glyph FILLED (format_header_bar current_slot true)
    = Z.to_nat (2 * current_slot) ∧
  count_glyph CURRENT (format_header_bar current_slot true) = 2%nat ∧
  count_glyph EMPTY (format_header_bar current_slot true)
    = Z.to_nat (2 * (TOTAL_SLOTS - 1 - current_slot)) ∧
  count_glyph DOT (format_header_bar current_slot true) = 25%nat.
Proof.
  intros Hcs.
  assert (Hall : Forall (λ cs,
    count_glyph FILLED (format_header_bar cs true) = Z.to_nat (2 * cs) ∧
    count_glyph CURRENT (format_header_bar cs true) = 2%nat ∧
    count_glyph EMPTY (format_header_bar cs true)
      = Z.to_nat (2 * (TOTAL_SLOTS - 1 - cs)) ∧
    count_glyph DOT (format_header_bar cs true) = 25%nat)
    (seqZ 0 TOTAL_SLOTS)) by compute_done.
  rewrite Forall_seqZ in Hall. apply Hall. lia.
Qed.

Lemma header_bar_progress_witness :
  count_glyph FILLED (format_header_bar 7 true) = 14%nat.
Proof.
  apply (header_bar_progress 7). rewrite TOTAL_SLOTS_eq. lia.
Defined.

(** * Properties of the rendering *)

Lemma clip_ljust_length w s : length (clip_ljust w s) = w.
Proof.
  unfold clip_ljust. rewrite length_app, length_replicate, length_take. lia.
Qed.

Lemma clip_ljust_short w s :
  (length s ≤ w)%nat → clip_ljust w s = s ++ replicate (w - length s) 32.
Proof. intros Hle. unfold clip_ljust. by rewrite take_ge by lia. Qed.

Lemma clip_ljust_long w s : (w ≤ length s)%nat → clip_ljust w s = take w s.
Proof.
  intros Hle. unfold clip_ljust. rewrite length_take.
  replace (w - w `min` length s)%nat with 0%nat by lia. apply app_nil_r.
Qed.

(** X6: the left panel of a task row is always 21 characters wide.  With no
    marked slot it is the name, cut or padded with spaces; with [n] marked
    slots it starts with [n] placeholder glyphs and a space, the name is
    shown in full only when [n + 1 + len(name) <= 21], and from 21 marked
    slots on the panel is placeholders only. *)
Theorem name_panel_width task :
  let n := (length (slots task) + length (rest_slots task))%nat in
  length (name_panel task) = 21%nat ∧
  (n = 0%nat → (length (name task) ≤ 21)%nat →
     name_panel task = name task ++ replicate (21 - length (name task)) 32) ∧
  (n = 0%nat → (21 ≤ length (name task))%nat →
     name_panel task = take 21 (name task)) ∧
  ((0 < n)%nat → (n + 1 + length (name task) ≤ 21)%nat →
     name_panel task
     = replicate n EMPTY ++ [32] ++ name task
       ++ replicate (21 - (n + 1 + length (name task))) 32) ∧
  ((0 < n)%nat → (21 < n + 1 + length (name task))%nat →
     name_panel task
     = take 21 (replicate n EMPTY ++ [32] ++ name task)) ∧
  ((21 ≤ n)%nat → name_panel task = replicate 21 EMPTY).
Proof.
  intros n. unfold name_panel. fold n.
  change (Z.to_nat (LEFT_PANEL_WIDTH - 1)) with 21%nat.
  split; [apply clip_ljust_length|].
  split; [|split; [|split; [|split]]].
  - intros -> Hlen. simpl. by apply clip_ljust_short.
  - intros -> Hlen. simpl. by apply clip_ljust_long.
  - intros Hn Hfit. rewrite (proj2 (Nat.ltb_lt 0 n)) by done.
    rewrite clip_ljust_short
      by (rewrite !length_app, length_replicate; simpl; lia).
    rewrite !length_app, length_replicate. simpl.
    rewrite <- !(assoc_L (++)). simpl. repeat (f_equal; try lia).
  - intros Hn Hover. rewrite (proj2 (Nat.ltb_lt 0 n)) by done.
    rewrite clip_ljust_long
      by (rewrite !length_app, length_replicate; simpl; lia).
    by rewrite <- !(assoc_L (++)).
  - intros Hn. rewrite (proj2 (Nat.ltb_lt 0 n)) by lia.
    rewrite clip_ljust_long
      by (rewrite !length_app, length_replicate; simpl; lia).
    rewrite <- !(assoc_L (++)), take_app_le by (rewrite length_replicate; lia).
    rewrite take_replicate. f_equal. lia.
Qed.

Lemma name_panel_width_witness :
  name_panel (mkTask [65; 66] [0; 1] [5])
  = [EMPTY; EMPTY; EMPTY; 32; 65; 66] ++ replicate 15 32.
Proof.
  destruct (name_panel_width (mkTask [65; 66] [0; 1] [5]))
    as (_ & _ & _ & Hfit & _).
  apply Hfit; simpl; lia.
Defined.

Lemma py_index_is_Some len i : is_Some (py_index len i) ↔ valid_index len i.
Proof.
  unfold py_index, valid_index.
  destruct (Z.leb_spec 0 i), (Z.ltb_spec i (Z.of_nat len)),
    (Z.leb_spec (- Z.of_nat len) i), (Z.ltb_spec i 0); simpl;
    (split; [intros [k Hk]; try done; lia | intros Hv; try (by eexists); lia]).
Qed.

Lemma py_index_lt len i k : py_index len i = Some k → (k < len)%nat.
Proof.
  unfold py_index.
  destruct (Z.leb_spec 0 i), (Z.ltb_spec i (Z.of_nat len)),
    (Z.leb_spec (- Z.of_nat len) i), (Z.ltb_spec i 0); simpl;
    intros [= <-]; lia.
Qed.

Lemma py_get_is_Some {A} (l : list A) i :
  is_Some (py_get l i) ↔ valid_index (length l) i.
Proof.
  rewrite <- py_index_is_Some. unfold py_get.
  destruct (py_index (length l) i) as [k|] eqn:Hk; [|by split; intros []].
  destruct (lookup_lt_is_Some_2 l k) as [x ->]; [by eapply py_index_lt|].
  split; by eexists.
Qed.

Section Rendering.
Variable clock : nat → datetime.

Ltac io_unfold :=
  unfold read_current_slot, read_elapsed_time, now, getch, raise, beep,
    sleep, emit, mbind, io_bind, mret, io_ret in *.

Ltac decide_modes :=
  change (bool_decide (Edit = Run)) with false in *;
  change (bool_decide (Run = Edit)) with false in *;
  change (bool_decide (Edit = Edit)) with true in *;
  change (bool_decide (Run = Run)) with true in *;
  change (bool_decide (FocusName = FocusName)) with true in *;
  change (bool_decide (FocusSlots = FocusName)) with false in *;
  change (bool_decide (FocusName = FocusSlots)) with false in *;
  change (bool_decide (FocusSlots = FocusSlots)) with true in *;
  cbn -[mapM] in *.

Lemma draw_rows_is_Some state current_slot is_running :
  is_Some (mapM (draw_row state current_slot is_running) (seqZ 0 MAX_TASKS))
  ↔ MAX_TASKS ≤ Z.of_nat (length (tasks state)).
Proof.
  rewrite mapM_is_Some, Forall_seqZ. split.
  - intros Hall. specialize (Hall (MAX_TASKS - 1)). simpl in Hall.
    unfold draw_row in Hall.
    destruct (py_get (tasks state) (MAX_TASKS - 1)) as [[k t]|] eqn:Hget.
    + assert (Hv : is_Some (py_get (tasks state) (MAX_TASKS - 1))) by by eexists.
      apply py_get_is_Some in Hv. unfold valid_index, MAX_TASKS in *. lia.
    + destruct Hall as [r Hr]; [unfold MAX_TASKS; lia|done].
  - intros Hlen i Hi. simpl. unfold draw_row.
    destruct (py_get_in_range (tasks state) i) as [t ->]; [lia|]. by eexists.
Qed.

(** What a successful draw returns, spelled out. *)
Lemma draw_interface_Some state w screen w' :
  draw_interface clock state w = (Some screen, w') →
  let n := clock_reads w in
  let is_running := bool_decide (mode state = Run) in
  let current_slot := if is_running then get_current_slot (clock n) else -1 in
  mapM (draw_row state current_slot is_running) (seqZ 0 MAX_TASKS)
    = Some (rows screen) ∧
  w' = mkWorld (if is_running then S (S (S n)) else S n) (key_polls w) (trace w) ∧
  time_display screen
    = (if is_running then Some (get_elapsed_time (clock (S n))) else None) ∧
  header_bar screen = format_header_bar current_slot is_running ∧
  status_clock screen = (if is_running then Some (clock (S (S n))) else None) ∧
  (text_cursor screen = None ∨
   mode state = Edit ∧ edit_focus state = FocusName ∧
   ∃ k task, py_get (tasks state) (cursor_row state) = Some (k, task) ∧
     let total := Z.of_nat (length (slots task) + length (rest_slots task)) in
     text_cursor screen
     = Some (2 + cursor_row state,
             Z.min ((if 0 <? total then total + 1 else 0)
                    + Z.of_nat (length (name task)))
                   (LEFT_PANEL_WIDTH - 2))) ∧
  (mode state = Edit → edit_focus state = FocusName → text_cursor screen ≠ None).
Proof.
  unfold draw_interface. io_unfold.
  destruct (mode state) eqn:Hmode; decide_modes;
    [destruct (mapM (draw_row state (-1) false) (seqZ 0 MAX_TASKS))
       as [rs|] eqn:Hrows
    |destruct (mapM (draw_row state (get_current_slot (clock (clock_reads w))) true)
                (seqZ 0 MAX_TASKS)) as [rs|] eqn:Hrows];
    cbn -[mapM]; try done.
  - destruct (edit_focus state) eqn:Hfocus; decide_modes.
    + destruct (py_get (tasks state) (cursor_row state)) as [[k task]|] eqn:Hget;
        cbn -[mapM]; [|done].
      intros [= <- <-]. cbn -[mapM]. repeat split; try done.
      right. repeat split; try done. by exists k, task.
    + intros [= <- <-]. cbn -[mapM]. repeat split; try done; by left.
  - intros [= <- <-]. cbn -[mapM]. repeat split; try done; by left.
Qed.

(** X7: drawing raises IndexError exactly when the task list has fewer than
    [MAX_TASKS] rows, or when, editing with the focus on the name, the
    cursor row is no index of the task list; rows beyond the fifth are
    never looked at. *)
Theorem draw_interface_raises_iff state w :
  (draw_interface clock state w).1 = None ↔
  Z.of_nat (length (tasks state)) < MAX_TASKS ∨
  (mode state = Edit ∧ edit_focus state = FocusName ∧
   ¬ valid_index (length (tasks state)) (cursor_row state)).
Proof.
  unfold draw_interface. io_unfold.
  pose proof (draw_rows_is_Some state) as Hrows.
  pose proof (py_get_is_Some (tasks state) (cursor_row state)) as Hrow.
  destruct (mode state) eqn:Hmode; decide_modes.
  - specialize (Hrows (-1) false).
    destruct (mapM (draw_row state (-1) false) (seqZ 0 MAX_TASKS)) as [rs|]; cbn -[mapM].
    + assert (MAX_TASKS ≤ Z.of_nat (length (tasks state)))
        by (apply Hrows; by eexists).
      destruct (edit_focus state); decide_modes.
      * destruct (py_get (tasks state) (cursor_row state)) as [[k task]|]; cbn -[mapM].
        -- split; [done|]. intros [?|(_ & _ & Hno)]; [lia|].
           destruct Hno. apply Hrow. by eexists.
        -- split; [|done]. intros _. right. repeat split; try done.
           intros Hv. apply Hrow in Hv. by destruct Hv.
      * split; [done|]. intros [?|(_ & ? & _)]; [lia|done].
    + split; [|done]. intros _. left.
      destruct (decide (MAX_TASKS ≤ Z.of_nat (length (tasks state)))) as [Hge|]; [|lia].
      apply Hrows in Hge. by destruct Hge.
  - specialize (Hrows (get_current_slot (clock (clock_reads w))) true).
    destruct (mapM (draw_row state (get_current_slot (clock (clock_reads w))) true)
                (seqZ 0 MAX_TASKS)) as [rs|]; cbn -[mapM].
    + assert (MAX_TASKS ≤ Z.of_nat (length (tasks state)))
        by (apply Hrows; by eexists).
      split; [done|]. intros [?|(? & _)]; [lia|done].
    + split; [|done]. intros _. left.
      destruct (decide (MAX_TASKS ≤ Z.of_nat (length (tasks state)))) as [Hge|]; [|lia].
      apply Hrows in Hge. by destruct Hge.
Qed.
Lemma py_get_nonneg {A} (l : list A) i k x :
  0 ≤ i → py_get l i = Some (k, x) → k = Z.to_nat i ∧ l !! Z.to_nat i = Some x.
Proof.
  intros Hi Hget. pose proof (py_get_Some l i k x Hget) as Hk.
  assert (Hv : valid_index (length l) i) by (apply py_get_is_Some; by eexists).
  unfold py_get, py_index in Hget. unfold valid_index in Hv.
  destruct (Z.leb_spec 0 i); [|lia].
  destruct (Z.ltb_spec i (Z.of_nat (length l))); [|lia]. simpl in Hget.
  destruct (l !! Z.to_nat i) as [y|] eqn:Hy; [|done].
  by injection Hget as <- <-.
Qed.

(** X8: drawing emits nothing and polls no key, whether it succeeds or
    raises.  While running it reads the clock three times, and the header
    bar, the elapsed-time readout and the status clock each come from a
    reading of their own, in this order; while editing it reads the clock
    once and shows the placeholder, an all-empty header and no clock. *)
Theorem draw_interface_readings state w :
  trace (draw_interface clock state w).2 = trace w ∧
  key_polls (draw_interface clock state w).2 = key_polls w ∧
  ∀ screen w',
    draw_interface clock state w = (Some screen, w') →
    let n := clock_reads w in
    (mode state = Run →
       clock_reads w' = S (S (S n)) ∧
       header_bar screen = format_header_bar (get_current_slot (clock n)) true ∧
       time_display screen = Some (get_elapsed_time (clock (S n))) ∧
       status_clock screen = Some (clock (S (S n))) ∧
       text_cursor screen = None) ∧
    (mode state = Edit →
       clock_reads w' = S n ∧
       header_bar screen = format_header_bar (-1) false ∧
       time_display screen = None ∧
       status_clock screen = None).
Proof.
  destruct (draw_interface_world clock state w) as [Htrace Hpolls].
  split; [done|]. split; [done|].
  intros screen w' Hdraw n.
  destruct (draw_interface_Some state w screen w' Hdraw)
    as (_ & -> & Htime & Hhead & Hstatus & Hcursor & _).
  split.
  - intros Hrun. rewrite Hrun in *. decide_modes.
    repeat split; try done. by destruct Hcursor as [?|[? _]].
  - intros Hedit. rewrite Hedit in *. by decide_modes.
Qed.

(** X9: while editing, what is drawn does not depend on the clock. *)
Theorem edit_render_ignores_clock (clock' : nat → datetime) state w :
  mode state = Edit →
  (draw_interface clock state w).1 = (draw_interface clock' state w).1.
Proof.
  intros Hedit. unfold draw_interface. io_unfold. rewrite Hedit. decide_modes.
  destruct (mapM (draw_row state (-1) false) (seqZ 0 MAX_TASKS)) as [rs|];
    [|done]. cbn -[mapM].
  destruct (edit_focus state); decide_modes; [|done].
  by destruct (py_get (tasks state) (cursor_row state)) as [[k task]|].
Qed.

(** X10: a drawn screen has exactly [MAX_TASKS] task rows; row [i] shows
    the left panel and the slot bar of task [i], and carries the slot
    cursor only while editing with the focus on the slots and only in the
    cursor's row, three columns per slot to the right of the left panel. *)
Theorem screen_rows state w screen w' :
  draw_interface clock state w = (Some screen, w') →
  let is_running := bool_decide (mode state = Run) in
  let current_slot :=
    if is_running then get_current_slot (clock (clock_reads w)) else -1 in
  Z.of_nat (length (rows screen)) = MAX_TASKS ∧
  (∀ i, (i < 5)%nat → is_Some (rows screen !! i)) ∧
  ∀ i row,
    rows screen !! i = Some row →
    (∃ task,
       tasks state !! i = Some task ∧
       row_name row = name_panel task ∧
       row_bar row
         = format_slot_bar (slots task) (rest_slots task) current_slot is_running) ∧
    (mode state = Edit → edit_focus state = FocusSlots →
     Z.of_nat i = cursor_row state →
     row_marker row = Some (LEFT_PANEL_WIDTH + 3 * cursor_col state)) ∧
    (mode state = Run ∨ edit_focus state = FocusName ∨
     Z.of_nat i ≠ cursor_row state →
     row_marker row = None).
Proof.
  intros Hdraw is_running current_slot.
  destruct (draw_interface_Some state w screen w' Hdraw) as (Hrows & _).
  apply mapM_Some_1 in Hrows.
  pose proof (Forall2_length _ _ _ Hrows) as Hlen.
  rewrite length_seqZ in Hlen.
  assert (Hfive : length (rows screen) = 5%nat) by (by rewrite <- Hlen).
  split; [by rewrite Hfive|].
  split; [intros i Hi; apply lookup_lt_is_Some_2; lia|].
  intros i row Hrow.
  destruct (Forall2_lookup_r _ _ _ _ _ Hrows Hrow) as (idx & Hidx & Hdrawn).
  apply lookup_seqZ in Hidx as [-> _]. rewrite Z.add_0_l in Hdrawn.
  unfold draw_row in Hdrawn.
  destruct (py_get (tasks state) (Z.of_nat i)) as [[k task]|] eqn:Hget; [|done].
  apply py_get_nonneg in Hget as [-> Htask]; [|lia].
  rewrite Nat2Z.id in Htask.
  injection Hdrawn as <-. simpl.
  split; [by exists task|]. split.
  - intros -> -> <-. decide_modes.
    rewrite bool_decide_true by done. simpl. do 2 f_equal. lia.
  - intros [-> | [-> | Hne]]; decide_modes; try done.
    + by rewrite andb_false_r.
    + rewrite (bool_decide_false (Z.of_nat i = cursor_row state)) by done.
      by rewrite andb_false_r.
Qed.

(** X11: the text cursor is placed only while editing with the focus on
    the name: on the screen line of the cursor's row, just behind the
    placeholder prefix and the name of that task, and never right of
    column [LEFT_PANEL_WIDTH - 2]. *)
Theorem text_cursor_position state w screen w' :
  draw_interface clock state w = (Some screen, w') →
  (text_cursor screen = None ↔
     ¬ (mode state = Edit ∧ edit_focus state = FocusName)) ∧
  (∀ line column,
     text_cursor screen = Some (line, column) →
     line = 2 + cursor_row state ∧
     0 ≤ column ≤ LEFT_PANEL_WIDTH - 2 ∧
     ∃ k task,
       py_get (tasks state) (cursor_row state) = Some (k, task) ∧
       let total := Z.of_nat (length (slots task) + length (rest_slots task)) in
       let behind_name :=
         (if 0 <? total then total + 1 else 0) + Z.of_nat (length (name task)) in
       column = Z.min behind_name (LEFT_PANEL_WIDTH - 2) ∧
       (behind_name ≤ LEFT_PANEL_WIDTH - 2 → column = behind_name)).
Proof.
  intros Hdraw.
  destruct (draw_interface_Some state w screen w' Hdraw)
    as (_ & _ & _ & _ & _ & Hcursor & Hplaced).
  split.
  - split.
    + intros Hnone [Hedit Hname]. by apply Hplaced.
    + intros Hnot. destruct Hcursor as [?|(Hedit & Hname & _)]; [done|].
      destruct Hnot. by split.
  - intros line column Hsome.
    destruct Hcursor as [Hnone|(_ & _ & k & task & Hget & Hpos)]; [congruence|].
    cbv zeta in Hpos. rewrite Hpos in Hsome. injection Hsome as <- <-.
    split; [done|]. split.
    + unfold LEFT_PANEL_WIDTH. destruct (0 <? _); lia.
    + exists k, task. split; [done|]. cbv zeta. split; [done|]. lia.
Qed.
End Rendering.

Lemma draw_interface_readings_witness :
  clock_reads
    (draw_interface (clock_at (DateTime 9 0 0)) (set_mode Run AppState_init)
       world_init).2 = 3%nat.
Proof.
  assert (Hdraw : ∃ screen w1,
    draw_interface (clock_at (DateTime 9 0 0)) (set_mode Run AppState_init)
      world_init = (Some screen, w1)).
  { eexists _, _. vm_compute. reflexivity. }
  destruct Hdraw as (screen & w1 & Hdraw).
  destruct (draw_interface_readings (clock_at (DateTime 9 0 0))
              (set_mode Run AppState_init) world_init) as (_ & _ & Hread).
  destruct (Hread screen w1 Hdraw) as (Hrun & _).
  rewrite Hdraw. simpl. apply Hrun. reflexivity.
Defined.

Lemma edit_render_ignores_clock_witness :
  (draw_interface (clock_at (DateTime 9 0 0)) AppState_init world_init).1
  = (draw_interface (clock_at (DateTime 23 59 59)) AppState_init world_init).1.
Proof.
  apply (edit_render_ignores_clock (clock_at (DateTime 9 0 0))
           (clock_at (DateTime 23 59 59)) AppState_init world_init).
  reflexivity.
Defined.

Lemma screen_rows_witness :
  ∃ screen w1 row,
    draw_interface (clock_at (DateTime 9 0 0))
      (set_cursor_col 4 (set_edit_focus FocusSlots AppState_init)) world_init
      = (Some screen, w1) ∧
    length (rows screen) = 5%nat ∧
    rows screen !! 0%nat = Some row ∧
    row_marker row = Some 34.
Proof.
  assert (Hdraw : ∃ screen w1 row,
    draw_interface (clock_at (DateTime 9 0 0))
      (set_cursor_col 4 (set_edit_focus FocusSlots AppState_init)) world_init
      = (Some screen, w1) ∧
    rows screen !! 0%nat = Some row).
  { eexists _, _, _. split; vm_compute; reflexivity. }
  destruct Hdraw as (screen & w1 & row & Hdraw & Hrow).
  exists screen, w1, row. split; [exact Hdraw|].
  destruct (screen_rows (clock_at (DateTime 9 0 0))
              (set_cursor_col 4 (set_edit_focus FocusSlots AppState_init))
              world_init screen w1 Hdraw) as (Hlen & _ & Hrows).
  split; [unfold MAX_TASKS in Hlen; lia|]. split; [exact Hrow|].
  destruct (Hrows 0%nat row Hrow) as (_ & Hmarker & _).
  apply Hmarker; reflexivity.
Defined.

Lemma text_cursor_position_witness :
  ∃ screen w1 column,
    draw_interface (clock_at (DateTime 9 0 0))
      (set_task 2 (mkTask [65; 66; 67] [4] []) (set_cursor_row 2 AppState_init))
      world_init = (Some screen, w1) ∧
    text_cursor screen = Some (4, column) ∧ 0 ≤ column ≤ 20.
Proof.
  assert (Hdraw : ∃ screen w1 column,
    draw_interface (clock_at (DateTime 9 0 0))
      (set_task 2 (mkTask [65; 66; 67] [4] []) (set_cursor_row 2 AppState_init))
      world_init = (Some screen, w1) ∧
    text_cursor screen = Some (4, column)).
  { eexists _, _, _. split; vm_compute; reflexivity. }
  destruct Hdraw as (screen & w1 & column & Hdraw & Hcursor).
  exists screen, w1, column. split; [exact Hdraw|]. split; [exact Hcursor|].
  destruct (text_cursor_position (clock_at (DateTime 9 0 0)) _ _ _ _ Hdraw)
    as (_ & Hpos).
  destruct (Hpos 4 column Hcursor) as (_ & Hcol & _). exact Hcol.
Defined.

(** * Further properties of the edit controller *)

Ltac key_cases :=
  unfold KEY_F5, ord_tab, KEY_UP, KEY_DOWN, KEY_LEFT, KEY_RIGHT, ord_newline,
    KEY_ENTER, KEY_BACKSPACE, ord_space, ord_r, ord_R in *;
  repeat (simpl;
          match goal with
          | |- context [?a =? ?b] =>
              is_var a; destruct (Z.eqb_spec a b) as [->|?]
          end);
  simpl.

(** X12: the handler raises IndexError exactly for a key other than F5,
    Tab, Up and Down pressed while the cursor row is no index of the task
    list, and it then leaves the state as it was; those four keys are
    served before the task is looked up and never raise. *)
Theorem handle_raises_iff state key :
  ((handle_edit_input state key).2 = IndexError ↔
     served_before_lookup key = false ∧
     ¬ valid_index (length (tasks state)) (cursor_row state)) ∧
  ((handle_edit_input state key).2 = IndexError →
     (handle_edit_input state key).1 = state).
Proof.
  pose proof (py_get_is_Some (tasks state) (cursor_row state)) as Hrow.
  unfold handle_edit_input, served_before_lookup.
  destruct (py_get (tasks state) (cursor_row state)) as [[k task]|].
  - assert (Hv : valid_index (length (tasks state)) (cursor_row state))
      by (apply Hrow; by eexists).
    destruct (edit_focus state); key_cases;
      repeat case_match; simpl;
      (split; [|done]); (split; [done|by intros [H1 H2]]).
  - assert (Hv : ¬ valid_index (length (tasks state)) (cursor_row state))
      by (intros Hv; apply Hrow in Hv; by destruct Hv).
    destruct (edit_focus state); key_cases;
      (split; [|done]);
      (split; [intros H; try done; by split|by intros [H1 H2]]).
Qed.

(** The task list after a call: untouched, or row [k] under the cursor
    rewritten by an editing key of the current focus, with the cursor and
    the focus left alone. *)
Lemma handle_tasks_shape state key :
  tasks (handle_edit_input state key).1 = tasks state ∨
  ∃ k task task',
    py_get (tasks state) (cursor_row state) = Some (k, task) ∧
    (handle_edit_input state key).1 = set_task k task' state ∧
    served_before_lookup key = false ∧
    editing_key (edit_focus state) key = true ∧
    (edit_focus state = FocusName ∧
       slots task' = slots task ∧ rest_slots task' = rest_slots task
     ∨ edit_focus state = FocusSlots ∧
       (task' = toggle_work task (cursor_col state) ∨
        task' = toggle_rest task (cursor_col state))).
Proof.
  unfold handle_edit_input, served_before_lookup, editing_key.
  destruct (py_get (tasks state) (cursor_row state)) as [[k task]|];
    destruct (edit_focus state) eqn:Hfocus; key_cases;
    repeat case_match; simpl; auto; right; eexists k, task, _;
    (split; [done|]); (split; [done|]); (split; [done|]); (split; [done|]);
    auto.
Qed.

Lemma toggle_work_name task s : name (toggle_work task s) = name task.
Proof. unfold toggle_work. by repeat case_match. Qed.

Lemma toggle_rest_name task s : name (toggle_rest task s) = name task.
Proof. unfold toggle_rest. by repeat case_match. Qed.

(** X13: a key press changes at most the one task under the cursor, and
    only for an editing key of the current focus (Backspace or a printable
    character on the name; Space, [r] or [R] on the slots), which then
    moves neither the cursor nor the focus.  The name focus never changes a
    slot list and the slots focus never changes a name; the mode and the
    number of tasks never change. *)
Theorem handle_changes_one_task state key j task task' :
  tasks state !! j = Some task →
  tasks (handle_edit_input state key).1 !! j = Some task' →
  let state' := (handle_edit_input state key).1 in
  mode state' = mode state ∧
  length (tasks state') = length (tasks state) ∧
  (task' ≠ task →
     py_index (length (tasks state)) (cursor_row state) = Some j ∧
     editing_key (edit_focus state) key = true ∧
     served_before_lookup key = false ∧
     cursor_row state' = cursor_row state ∧
     cursor_col state' = cursor_col state ∧
     edit_focus state' = edit_focus state) ∧
  (edit_focus state = FocusName →
     slots task' = slots task ∧ rest_slots task' = rest_slots task) ∧
  (edit_focus state = FocusSlots → name task' = name task).
Proof.
  intros Hj Hj' state'. subst state'.
  split; [apply handle_mode|]. split; [apply handle_tasks_length|].
  destruct (handle_tasks_shape state key)
    as [Hsame|(k & t & t' & Hget & Hstate & Hserved & Hkey & Hkind)].
  - rewrite Hsame, Hj in Hj'. injection Hj' as <-. by repeat split.
  - rewrite Hstate in *. simpl in Hj'.
    pose proof (py_get_Some _ _ _ _ Hget) as Hk.
    destruct (decide (j = k)) as [->|Hne].
    + rewrite list_lookup_insert_eq in Hj' by (by eapply lookup_lt_Some).
      injection Hj' as <-. rewrite Hk in Hj. injection Hj as <-.
      split; [|split].
      * intros _. repeat split; try done.
        unfold py_get in Hget.
        destruct (py_index (length (tasks state)) (cursor_row state)) as [k'|];
          [|done].
        destruct (tasks state !! k'); [|done]. by injection Hget as -> _.
      * intros Hf. destruct Hkind as [(_ & ? & ?)|[Hf' _]]; [done|congruence].
      * intros Hf. destruct Hkind as [[Hf' _]|(_ & [-> | ->])]; [congruence|..].
        -- apply toggle_work_name.
        -- apply toggle_rest_name.
    + rewrite list_lookup_insert_ne in Hj' by done.
      rewrite Hj in Hj'. injection Hj' as <-. by repeat split.
Qed.

Lemma handle_changes_one_task_witness :
  slots (mkTask [] [] []) = [] ∧
  tasks (handle_edit_input AppState_init 65).1 !! 3%nat = Some (mkTask [] [] []).
Proof.
  assert (H3 : tasks (handle_edit_input AppState_init 65).1 !! 3%nat
               = Some (mkTask [] [] [])) by reflexivity.
  destruct (handle_changes_one_task AppState_init 65 3 (mkTask [] [] [])
              (mkTask [] [] []) eq_refl H3) as (_ & _ & _ & Hname & _).
  split; [|exact H3]. apply Hname. reflexivity.
Defined.

(** * Further properties of the toggles *)

Lemma elem_of_py_remove_ne x l y : y ≠ x → y ∈ py_remove x l ↔ y ∈ l.
Proof.
  intros Hne. induction l as [|z l IH]; simpl; [done|].
  case_bool_decide as Hz; rewrite ?elem_of_cons, ?IH; naive_solver.
Qed.

Lemma py_remove_length x l :
  x ∈ l → S (length (py_remove x l)) = length l.
Proof.
  intros Hin. apply py_remove_Permutation in Hin.
  by rewrite Hin at 2.
Qed.

(** X14: a toggle on slot [s] leaves the marking of every other slot as it
    was, in both lists, and leaves the name alone. *)
Theorem toggle_touches_one_slot task s x :
  x ≠ s →
  (x ∈ slots (toggle_work task s) ↔ x ∈ slots task) ∧
  (x ∈ rest_slots (toggle_work task s) ↔ x ∈ rest_slots task) ∧
  (x ∈ slots (toggle_rest task s) ↔ x ∈ slots task) ∧
  (x ∈ rest_slots (toggle_rest task s) ↔ x ∈ rest_slots task) ∧
  name (toggle_work task s) = name task ∧
  name (toggle_rest task s) = name task.
Proof.
  intros Hne.
  assert (Hsnoc : ∀ l, x ∈ l ++ [s] ↔ x ∈ l).
  { intros l. rewrite elem_of_app, list_elem_of_singleton. naive_solver. }
  repeat split; try apply toggle_work_name; try apply toggle_rest_name;
    unfold toggle_work, toggle_rest; repeat case_match; simpl;
    rewrite ?Hsnoc, ?elem_of_py_remove_ne by done; done.
Qed.

Lemma toggle_touches_one_slot_witness :
  (5 ∈ rest_slots (toggle_work (mkTask [] [1] [3; 5]) 3) ↔ 5 ∈ [3; 5]).
Proof.
  apply (toggle_touches_one_slot (mkTask [] [1] [3; 5]) 3 5). lia.
Defined.

(** X15: on a task whose lists are duplicate-free and disjoint, a work
    toggle flips whether the slot is a work slot and leaves it no rest
    slot, and a rest toggle does the same the other way round.  So the
    kind toggled last wins, whatever the slot was before: after work then
    rest the slot is a rest slot, and after work, rest, work it is a work
    slot. *)
Theorem toggle_flips_marking task s :
  slots_unique task → slots_disjoint task →
  ((s ∈ slots (toggle_work task s) ↔ s ∉ slots task) ∧
   s ∉ rest_slots (toggle_work task s)) ∧
  ((s ∈ rest_slots (toggle_rest task s) ↔ s ∉ rest_slots task) ∧
   s ∉ slots (toggle_rest task s)) ∧
  (let t2 := toggle_rest (toggle_work task s) s in
   s ∈ rest_slots t2 ∧ s ∉ slots t2) ∧
  (let t3 := toggle_work (toggle_rest (toggle_work task s) s) s in
   s ∈ slots t3 ∧ s ∉ rest_slots t3).
Proof.
  assert (Hflip_w : ∀ t, slots_unique t → slots_disjoint t →
            (s ∈ slots (toggle_work t s) ↔ s ∉ slots t) ∧
            s ∉ rest_slots (toggle_work t s)).
  { intros t [Hw Hr]. rewrite slots_disjoint_alt. intros Hd.
    unfold toggle_work. repeat case_bool_decide; simpl;
      rewrite ?elem_of_app, ?list_elem_of_singleton, ?elem_of_py_remove by done;
      naive_solver. }
  assert (Hflip_r : ∀ t, slots_unique t → slots_disjoint t →
            (s ∈ rest_slots (toggle_rest t s) ↔ s ∉ rest_slots t) ∧
            s ∉ slots (toggle_rest t s)).
  { intros t [Hw Hr]. rewrite slots_disjoint_alt. intros Hd.
    unfold toggle_rest. repeat case_bool_decide; simpl;
      rewrite ?elem_of_app, ?list_elem_of_singleton, ?elem_of_py_remove by done;
      naive_solver. }
  intros Hu Hd.
  destruct (toggle_work_ok task s Hu Hd) as [Hu1 Hd1].
  destruct (toggle_rest_ok _ s Hu1 Hd1) as [Hu2 Hd2].
  destruct (Hflip_w task Hu Hd) as [Hw1 Hr1].
  destruct (Hflip_r _ Hu1 Hd1) as [Hr2 Hw2].
  destruct (Hflip_w _ Hu2 Hd2) as [Hw3 Hr3].
  split; [done|]. split; [by apply Hflip_r|]. split.
  - split; [by apply Hr2|done].
  - split; [by apply Hw3|done].
Qed.

Lemma toggle_flips_marking_witness :
  3 ∈ rest_slots (toggle_rest (toggle_work (mkTask [] [3; 4] [7]) 3) 3) ∧
  3 ∈ slots (toggle_work (toggle_rest (toggle_work (mkTask [] [3; 4] [7]) 3) 3) 3).
Proof.
  assert (Hu : slots_unique (mkTask [] [3; 4] [7])) by compute_done.
  assert (Hd : slots_disjoint (mkTask [] [3; 4] [7])) by compute_done.
  destruct (toggle_flips_marking (mkTask [] [3; 4] [7]) 3 Hu Hd)
    as (_ & _ & [H2 _] & [H3 _]).
  split; [exact H2|exact H3].
Defined.

(** X16: the number of marked slots of a task, which the left panel shows
    as placeholder glyphs, goes down by one when a toggle unmarks a slot,
    stays the same when it moves the slot to the other kind, and goes up by
    one when it marks an unmarked slot; this needs no assumption on the
    lists. *)
Theorem toggle_marked_count task s :
  let marked t := (length (slots t) + length (rest_slots t))%nat in
  (s ∈ slots task → S (marked (toggle_work task s)) = marked task) ∧
  (s ∉ slots task → s ∈ rest_slots task →
     marked (toggle_work task s) = marked task) ∧
  (s ∉ slots task → s ∉ rest_slots task →
     marked (toggle_work task s) = S (marked task)) ∧
  (s ∈ rest_slots task → S (marked (toggle_rest task s)) = marked task) ∧
  (s ∉ rest_slots task → s ∈ slots task →
     marked (toggle_rest task s) = marked task) ∧
  (s ∉ rest_slots task → s ∉ slots task →
     marked (toggle_rest task s) = S (marked task)).
Proof.
  intros marked. subst marked. unfold toggle_work, toggle_rest.
  repeat split; intros; repeat case_bool_decide; try done;
    simpl; rewrite ?length_app; simpl;
    repeat match goal with
           | H : ?x ∈ ?l |- _ => apply py_remove_length in H
           end; lia.
Qed.

Lemma toggle_marked_count_witness :
  Nat.add (length (slots (toggle_work (mkTask [] [1] [2; 3]) 2)))
    (length (rest_slots (toggle_work (mkTask [] [1] [2; 3]) 2))) = 3%nat.
Proof.
  destruct (toggle_marked_count (mkTask [] [1] [2; 3]) 2) as (_ & Hmove & _).
  apply Hmove; compute_done.
Defined.

(** * Further properties of name editing and navigation *)

(** X17: with the focus on the name of a task shorter than the cap, typing
    a printable character and then Backspace gives back the state exactly;
    at the cap the character is ignored and the Backspace then deletes the
    last character of the name. *)
Theorem type_then_backspace state k task c :
  edit_focus state = FocusName →
  py_get (tasks state) (cursor_row state) = Some (k, task) →
  printable c →
  ((length (name task) < 15)%nat →
     edit_session state [c; KEY_BACKSPACE] = state) ∧
  ((15 ≤ length (name task))%nat →
     edit_session state [c; KEY_BACKSPACE]
     = set_task k (set_name (drop_last (name task)) task) state).
Proof.
  intros Hf Hget Hc. simpl.
  rewrite (handle_printable state k task c Hf Hget Hc).
  split; intros Hlen.
  - rewrite (proj2 (Nat.ltb_lt _ _) Hlen).
    rewrite (handle_backspace _ k (set_name (name task ++ [c]) task));
      [|done|by eapply py_get_insert|by left].
    rewrite set_task_twice. simpl. rewrite drop_last_snoc.
    apply set_task_same. apply py_get_Some in Hget. by destruct task.
  - rewrite (proj2 (Nat.ltb_ge _ _) Hlen).
    by rewrite (handle_backspace state k task) by (done || by left).
Qed.

Lemma type_then_backspace_witness :
  edit_session AppState_init [65; KEY_BACKSPACE] = AppState_init.
Proof.
  destruct (type_then_backspace AppState_init 0 (mkTask [] [] []) 65
              eq_refl eq_refl) as [Hback _].
  - unfold printable. lia.
  - apply Hback. simpl. lia.
Defined.

(** X18: with the focus on the name, Enter (code 10, 13 or [KEY_ENTER])
    does what Down does: it moves to the next task and stays on the last
    one; with the focus on the slots it does nothing. *)
Theorem enter_is_down state key :
  is_Some (py_get (tasks state) (cursor_row state)) →
  key = 10 ∨ key = 13 ∨ key = KEY_ENTER →
  (edit_focus state = FocusName →
     handle_edit_input state key = handle_edit_input state KEY_DOWN) ∧
  (edit_focus state = FocusSlots →
     handle_edit_input state key = (state, Return false)).
Proof.
  intros [[k task] Hget] Hkey. rewrite handle_down.
  split; intros Hf; unfold handle_edit_input; rewrite Hf, Hget;
    by destruct Hkey as [-> | [-> | ->]].
Qed.

Lemma enter_is_down_witness :
  cursor_row (handle_edit_input AppState_init 13).1 = 1.
Proof.
  assert (Hrow : is_Some (py_get (tasks AppState_init) (cursor_row AppState_init)))
    by (eexists; reflexivity).
  destruct (enter_is_down AppState_init 13 Hrow ltac:(auto)) as [Hname _].
  rewrite (Hname eq_refl). reflexivity.
Defined.

(** X19: Tab pressed twice gives back the state.  Away from the last row
    Down then Up gives back the state, and away from the last column, with
    the focus on the slots, so does Right then Left; on the last row or
    column the first key does nothing and the second moves back by one. *)
Theorem navigation_round_trips state :
  edit_session state [ord_tab; ord_tab] = state ∧
  (0 ≤ cursor_row state < MAX_TASKS - 1 →
     edit_session state [KEY_DOWN; KEY_UP] = state) ∧
  (cursor_row state = MAX_TASKS - 1 →
     edit_session state [KEY_DOWN; KEY_UP]
     = set_cursor_row (MAX_TASKS - 2) state) ∧
  (edit_focus state = FocusSlots →
   is_Some (py_get (tasks state) (cursor_row state)) →
     (0 ≤ cursor_col state < TOTAL_SLOTS - 1 →
        edit_session state [KEY_RIGHT; KEY_LEFT] = state) ∧
     (cursor_col state = TOTAL_SLOTS - 1 →
        edit_session state [KEY_RIGHT; KEY_LEFT]
        = set_cursor_col (TOTAL_SLOTS - 2) state)).
Proof.
  split; [by destruct state as [ts r c m []]|].
  split; [|split].
  - intros Hrow. simpl. unfold set_cursor_row. simpl.
    destruct state as [ts r c m f]. simpl in *. f_equal.
    unfold MAX_TASKS in *. lia.
  - intros Hrow. simpl. unfold set_cursor_row. simpl. f_equal.
    rewrite Hrow. reflexivity.
  - intros Hf [[k task] Hget].
    assert (Hsession : edit_session state [KEY_RIGHT; KEY_LEFT]
      = set_cursor_col
          (Z.max 0 (Z.min (TOTAL_SLOTS - 1) (cursor_col state + 1) - 1)) state).
    { simpl. rewrite (handle_right state k task Hf Hget).
      by rewrite (handle_left _ k task) by done. }
    rewrite Hsession. split; intros Hcol.
    + destruct state as [ts r c m f]. unfold set_cursor_col. simpl in *.
      f_equal. rewrite TOTAL_SLOTS_eq in *. lia.
    + unfold set_cursor_col. f_equal. rewrite Hcol. reflexivity.
Qed.

Lemma navigation_round_trips_witness :
  edit_session AppState_init [KEY_DOWN; KEY_UP] = AppState_init.
Proof.
  destruct (navigation_round_trips AppState_init) as (_ & Hdown & _).
  apply Hdown. simpl. unfold MAX_TASKS. lia.
Defined.

(** * Further properties of the main loop *)

Section LoopProperties.
Variable clock : nat → datetime.
Variable keyboard : nat → Z.

Ltac io_unfold :=
  unfold read_current_slot, read_elapsed_time, now, getch, raise, beep,
    sleep, emit, mbind, io_bind, mret, io_ret in *.

Ltac decide_modes :=
  change (bool_decide (Edit = Run)) with false in *;
  change (bool_decide (Run = Edit)) with false in *;
  change (bool_decide (Edit = Edit)) with true in *;
  change (bool_decide (Run = Run)) with true in *;
  cbn -[mapM] in *.

(** The rounds compose: [n + m] rounds are [n] rounds followed, if the
    loop is still going, by [m] more. *)
Lemma main_loop_add n m : ∀ state last_minute w,
  main_loop clock keyboard (n + m) state last_minute w
  = match main_loop clock keyboard n state last_minute w with
    | (Some (Continue state' lm'), w') => main_loop clock keyboard m state' lm' w'
    | r => r
    end.
Proof.
  induction n as [|n IH]; intros state lm w; simpl; [done|].
  unfold mbind, io_bind.
  destruct (loop_body clock keyboard state lm w) as [[[s1 lm1|]|] w1];
    [apply IH|done..].
Qed.

(** One round in edit mode, with everything it does to the world. *)
Lemma loop_body_edit_world state last_minute w :
  mode state = Edit → well_formed state →
  ∃ screen,
    loop_body clock keyboard state last_minute w
    = (Some (let key := keyboard (key_polls w) in
             if key =? -1 then Continue state last_minute
             else match handle_edit_input state key with
                  | (state', Return true) => Continue (set_mode Run state') (-1)
                  | (state', _) => Continue state' last_minute
                  end),
       mkWorld (S (clock_reads w)) (S (key_polls w))
         (trace w ++ [Refresh screen])).
Proof.
  intros Hedit Hwf. unfold loop_body. unfold mbind at 1, io_bind at 1.
  destruct (draw_interface_succeeds clock state w Hwf) as [screen Hscreen].
  destruct (draw_interface clock state w) as [[screen'|] w1] eqn:Hdraw; [|done].
  destruct (draw_interface_Some clock state w screen' w1 Hdraw) as (_ & -> & _).
  rewrite Hedit. decide_modes. io_unfold. simpl.
  pose proof (handle_no_IndexError state (keyboard (key_polls w)) Hwf) as Hno.
  exists screen'. repeat case_match; simplify_eq/=; done.
Qed.

(** X20: while the program is editing and F5 is not pressed, the loop goes
    on whatever is typed ([q] does not quit): each round renders once,
    reads the clock once, polls one key and emits no alert and no pause,
    and the state after [fuel] rounds is the one the handler builds from
    the keys polled. *)
Theorem edit_mode_rounds fuel : ∀ state last_minute w,
  mode state = Edit → well_formed state →
  (∀ i, (i < fuel)%nat → keyboard (key_polls w + i) ≠ KEY_F5) →
  ∃ state' w',
    main_loop clock keyboard fuel state last_minute w
      = (Some (Continue state' last_minute), w') ∧
    mode state' = Edit ∧
    state' = edit_session state (keyboard <$> seq (key_polls w) fuel) ∧
    key_polls w' = (key_polls w + fuel)%nat ∧
    clock_reads w' = (clock_reads w + fuel)%nat ∧
    (∃ renders, trace w' = trace w ++ renders ∧ length renders = fuel ∧
                Forall (λ e, is_refresh e = true) renders).
Proof.
  induction fuel as [|fuel IH]; intros state lm w Hedit Hwf Hkeys.
  - exists state, w. simpl. repeat split; try done; try lia.
    exists []. by rewrite app_nil_r.
  - destruct (loop_body_edit_world state lm w Hedit Hwf) as [screen Hbody].
    assert (Hfirst : keyboard (key_polls w) ≠ KEY_F5).
    { specialize (Hkeys 0%nat). rewrite Nat.add_0_r in Hkeys. apply Hkeys. lia. }
    assert (Hnext : ∃ s1,
      loop_body clock keyboard state lm w
        = (Some (Continue s1 lm),
           mkWorld (S (clock_reads w)) (S (key_polls w))
             (trace w ++ [Refresh screen])) ∧
      mode s1 = Edit ∧ well_formed s1 ∧
      edit_session state
        (keyboard (key_polls w) :: (keyboard <$> seq (S (key_polls w)) fuel))
      = edit_session s1 (keyboard <$> seq (S (key_polls w)) fuel)).
    { rewrite Hbody. cbv zeta.
      destruct (Z.eqb_spec (keyboard (key_polls w)) (-1)) as [Hto|Hkey].
      - exists state. rewrite Hto. simpl. by rewrite handle_timeout.
      - pose proof (handle_well_formed state (keyboard (key_polls w)) Hwf) as Hwf'.
        pose proof (handle_mode state (keyboard (key_polls w))) as Hmode.
        pose proof (handle_returns_true state (keyboard (key_polls w))) as Htrue.
        pose proof (handle_no_IndexError state (keyboard (key_polls w)) Hwf) as Hno.
        simpl.
        destruct (handle_edit_input state (keyboard (key_polls w)))
          as [s1 [[]|]]; simpl in *.
        + destruct Hfirst. by apply Htrue.
        + exists s1. split; [done|]. split; [congruence|]. by split.
        + done. }
    destruct Hnext as (s1 & Hbody1 & Hedit1 & Hwf1 & Hsession).
    destruct (IH s1 lm
                (mkWorld (S (clock_reads w)) (S (key_polls w))
                   (trace w ++ [Refresh screen])) Hedit1 Hwf1)
      as (state' & w' & Hloop & Hmode' & Hstate' & Hpolls & Hreads & renders
          & Htrace & Hlen & Hall).
    { intros i Hi. simpl. specialize (Hkeys (S i)).
      replace (key_polls w + S i)%nat with (S (key_polls w + i)) in Hkeys by lia.
      apply Hkeys. lia. }
    exists state', w'.
    split; [simpl; unfold mbind at 1, io_bind at 1; by rewrite Hbody1|].
    split; [done|]. split.
    { change (keyboard <$> seq (key_polls w) (S fuel))
        with (keyboard (key_polls w) :: (keyboard <$> seq (S (key_polls w)) fuel)).
      rewrite Hsession. exact Hstate'. }
    simpl in Hpolls, Hreads, Htrace.
    split; [lia|]. split; [lia|].
    exists (Refresh screen :: renders).
    split; [by rewrite Htrace, <- (assoc_L (++))|].
    split; [simpl; lia|]. by constructor.
Qed.

(** X21: a round in run mode inside the window renders, emits one alert if
    the minute read differs from the last alerted minute and none
    otherwise, never pauses, and polls one key: [q] or [Q] ends the loop,
    any other key (F5 and the timeout included) leaves the state as it is.
    The minute read becomes the last alerted minute, so a second round in
    the same minute is silent. *)
Theorem run_round_in_window state last_minute w screen w1 :
  mode state = Run →
  draw_interface clock state w = (Some screen, w1) →
  let t := clock (clock_reads w1) in
  let current_slot := get_current_slot (clock (S (clock_reads w1))) in
  0 ≤ current_slot < TOTAL_SLOTS →
  let key := keyboard (key_polls w) in
  let r := loop_body clock keyboard state last_minute w in
  r.1 = Some (if (key =? ord_q) || (key =? ord_Q) then Break
              else Continue state (minute t)) ∧
  trace r.2
    = trace w ++ Refresh screen
        :: (if bool_decide (minute t ≠ last_minute) then [Beep] else []) ∧
  key_polls r.2 = S (key_polls w) ∧
  (minute t = last_minute → count_beeps (trace r.2) = count_beeps (trace w)).
Proof.
  intros Hrun Hdraw t current_slot Hslot key r.
  assert (Hday : day_end current_slot = false).
  { unfold day_end. destruct (Z.eqb_spec current_slot (-1)); [lia|].
    destruct (Z.geb_spec current_slot TOTAL_SLOTS); [lia|done]. }
  destruct (draw_interface_world clock state w) as [Htr Hkp].
  rewrite Hdraw in Htr, Hkp. simpl in Htr, Hkp.
  assert (Hr : r = (Some (if (key =? ord_q) || (key =? ord_Q) then Break
                          else Continue state (minute t)),
                    mkWorld (S (S (clock_reads w1))) (S (key_polls w))
                      (trace w ++ Refresh screen
                         :: (if bool_decide (minute t ≠ last_minute)
                             then [Beep] else [])))).
  { subst r. unfold loop_body. unfold mbind at 1, io_bind at 1. rewrite Hdraw.
    rewrite Hrun. decide_modes. unfold run_checks. io_unfold. simpl.
    fold t. fold current_slot.
    case_bool_decide as Hmin; simpl; rewrite Hday; simpl; rewrite Hkp, Htr;
      fold key; destruct (Z.eqb_spec key (-1)) as [Hto|Hkey];
      rewrite ?Hto; simpl; rewrite <- ?(assoc_L (++)); simpl;
      try (destruct ((key =? ord_q) || (key =? ord_Q))); try done.
    all: by rewrite Hmin. }
  rewrite Hr. simpl. repeat split; try done.
  intros Hsame. rewrite bool_decide_false by (by intros ?).
  unfold count_beeps. by rewrite filter_app, length_app.
Qed.
End LoopProperties.

Section RunProperties.
Variable clock : nat → datetime.
Variable keyboard : nat → Z.

Ltac io_unfold :=
  unfold read_current_slot, read_elapsed_time, now, getch, raise, beep,
    sleep, emit, mbind, io_bind, mret, io_ret in *.

Ltac decide_modes :=
  change (bool_decide (Edit = Run)) with false in *;
  change (bool_decide (Run = Edit)) with false in *;
  change (bool_decide (Edit = Edit)) with true in *;
  change (bool_decide (Run = Run)) with true in *;
  cbn -[mapM] in *.

(** X22: F5 in edit mode starts the run without touching anything else in
    the state and forgets the last alerted minute, so that the first round
    in run mode emits an alert right after its render, whatever the
    time. *)
Theorem f5_starts_run state last_minute w w2 screen2 w3 :
  mode state = Edit → well_formed state →
  keyboard (key_polls w) = KEY_F5 →
  draw_interface clock (set_mode Run state) w2 = (Some screen2, w3) →
  0 ≤ minute (clock (clock_reads w3)) →
  (loop_body clock keyboard state last_minute w).1
    = Some (Continue (set_mode Run state) (-1)) ∧
  ∃ more,
    trace (loop_body clock keyboard (set_mode Run state) (-1) w2).2
    = trace w2 ++ [Refresh screen2; Beep] ++ more.
Proof.
  intros Hedit Hwf Hkey Hdraw Hminute. split.
  - destruct (loop_body_edit_world clock keyboard state last_minute w Hedit Hwf)
      as [screen ->].
    simpl. by rewrite Hkey.
  - destruct (draw_interface_world clock (set_mode Run state) w2) as [Htr Hkp].
    rewrite Hdraw in Htr, Hkp. simpl in Htr, Hkp.
    unfold loop_body. unfold mbind at 1, io_bind at 1. rewrite Hdraw.
    change (mode (set_mode Run state)) with Run. decide_modes.
    unfold run_checks. io_unfold. simpl.
    rewrite bool_decide_true by lia. simpl.
    destruct (day_end _); simpl.
    + eexists. rewrite Htr, <- !(assoc_L (++)). simpl. reflexivity.
    + destruct (keyboard (key_polls w3) =? -1); simpl;
        [|destruct ((keyboard (key_polls w3) =? ord_q)
                    || (keyboard (key_polls w3) =? ord_Q)); simpl];
        exists []; by rewrite Htr, <- !(assoc_L (++)).
Qed.

(** X23: run mode is final: once a state of the main loop is running,
    every later state of the loop is that very state, so the program never
    comes back to editing and no task or cursor changes any more. *)
Theorem run_mode_is_final n m state last_minute w state' lm' w' :
  main clock keyboard n = (Some (Continue state last_minute), w) →
  mode state = Run →
  main clock keyboard (n + m) = (Some (Continue state' lm'), w') →
  state' = state.
Proof.
  unfold main. intros Hn Hrun. rewrite main_loop_add, Hn.
  by apply main_loop_run.
Qed.

Lemma count_events_cons (f : event → bool) e l :
  length (filter (λ e, f e) (e :: l))
  = ((if f e then 1 else 0) + length (filter (λ e, f e) l))%nat.
Proof.
  rewrite filter_cons. destruct (f e) eqn:Hf; case_decide as Hd; simpl in *;
    try done; by rewrite Hf in Hd.
Qed.

(** X24: in run mode the loop stops only at the end of the day or on [q]:
    while every clock reading is a valid time inside the window and
    neither [q] nor [Q] is typed, the loop is still going after any number
    of rounds, with the state unchanged, one render per round and no
    pause. *)
Theorem run_goes_on_in_window fuel : ∀ state last_minute w,
  mode state = Run → well_formed state →
  (∀ n, valid_time (clock n) ∧ in_window (clock n)) →
  (∀ n, keyboard n ≠ ord_q ∧ keyboard n ≠ ord_Q) →
  ∃ lm' w' emitted,
    main_loop clock keyboard fuel state last_minute w
      = (Some (Continue state lm'), w') ∧
    trace w' = trace w ++ emitted ∧
    count_refreshes emitted = fuel ∧
    key_polls w' = (key_polls w + fuel)%nat ∧
    Forall (λ e, is_refresh e = true ∨ is_beep e = true) emitted ∧
    (count_beeps emitted ≤ fuel)%nat.
Proof.
  induction fuel as [|fuel IH]; intros state lm w Hrun Hwf Hclock Hkeys.
  - exists lm, w, []. simpl. rewrite app_nil_r. repeat split; try done; lia.
  - destruct (draw_interface_succeeds clock state w Hwf) as [screen Hscreen].
    destruct (draw_interface clock state w) as [[screen'|] w1] eqn:Hdraw; [|done].
    assert (Hslot : 0 ≤ get_current_slot (clock (S (clock_reads w1))) < TOTAL_SLOTS).
    { destruct (Hclock (S (clock_reads w1))) as [Hv Hin].
      destruct (current_slot_spec _ Hv) as (_ & Hinside & _).
      by apply Hinside. }
    destruct (run_round_in_window clock keyboard state lm w screen' w1
                Hrun Hdraw Hslot) as (Hres & Htrace & Hpolls & _).
    destruct (Hkeys (key_polls w)) as [Hq HQ].
    rewrite (proj2 (Z.eqb_neq _ _) Hq), (proj2 (Z.eqb_neq _ _) HQ) in Hres.
    simpl in Hres.
    destruct (loop_body clock keyboard state lm w) as [res w2] eqn:Hbody.
    simpl in Hres, Htrace, Hpolls. subst res.
    destruct (IH state (minute (clock (clock_reads w1))) w2 Hrun Hwf Hclock Hkeys)
      as (lm' & w' & emitted & Hloop & Htrace' & Hcount & Hpolls' & Hall & Hbeeps).
    exists lm', w',
      (Refresh screen'
         :: (if bool_decide (minute (clock (clock_reads w1)) ≠ lm)
             then [Beep] else []) ++ emitted).
    split; [simpl; unfold mbind at 1, io_bind at 1; by rewrite Hbody|].
    split; [rewrite Htrace', Htrace, <- (assoc_L (++)); done|].
    unfold count_refreshes, count_beeps in *.
    case_bool_decide; simpl; rewrite !count_events_cons; simpl.
    + split; [lia|]. split; [lia|]. split; [|lia].
      constructor; [by left|]. constructor; [by right|done].
    + split; [lia|]. split; [lia|]. split; [|lia].
      constructor; [by left|done].
Qed.

(** X25: whatever the clock shows and whatever is typed, the program never
    fails with IndexError: after any number of rounds the loop has either
    ended or is still going. *)
Theorem main_never_fails fuel :
  (main clock keyboard fuel).1 = Some Break ∨
  ∃ state last_minute,
    (main clock keyboard fuel).1 = Some (Continue state last_minute) ∧
    well_formed state.
Proof.
  destruct (main_never_raises clock keyboard fuel) as [[state lm|] Hres].
  - right. exists state, lm. split; [done|].
    destruct (main clock keyboard fuel) as [res w] eqn:Hmain.
    simpl in Hres. subst res.
    by destruct (main_reaches_good_states clock keyboard fuel state lm w Hmain).
  - by left.
Qed.
End RunProperties.

Lemma edit_mode_rounds_witness :
  ∃ state' w',
    main_loop (clock_at (DateTime 9 0 0)) (λ _, ord_q) 3 AppState_init (-1)
      world_init = (Some (Continue state' (-1)), w') ∧
    mode state' = Edit ∧ key_polls w' = 3%nat.
Proof.
  destruct (edit_mode_rounds (clock_at (DateTime 9 0 0)) (λ _, ord_q) 3
              AppState_init (-1) world_init eq_refl AppState_init_well_formed)
    as (state' & w' & Hloop & Hmode & _ & Hpolls & _).
  - intros i _. unfold ord_q, KEY_F5. lia.
  - exists state', w'. split; [exact Hloop|]. split; [exact Hmode|exact Hpolls].
Defined.

Lemma run_round_in_window_witness :
  (loop_body (clock_at (DateTime 9 0 0)) no_keys (set_mode Run AppState_init)
     0 world_init).1 = Some (Continue (set_mode Run AppState_init) 0).
Proof.
  assert (Hdraw : ∃ screen w1,
    draw_interface (clock_at (DateTime 9 0 0)) (set_mode Run AppState_init)
      world_init = (Some screen, w1)).
  { eexists _, _. vm_compute. reflexivity. }
  destruct Hdraw as (screen & w1 & Hdraw).
  assert (Hslot : 0 ≤ get_current_slot
                        (clock_at (DateTime 9 0 0) (S (clock_reads w1)))
                  < TOTAL_SLOTS) by compute_done.
  destruct (run_round_in_window (clock_at (DateTime 9 0 0)) no_keys
              (set_mode Run AppState_init) 0 world_init screen w1
              eq_refl Hdraw Hslot) as (Hres & _).
  exact Hres.
Defined.

Lemma f5_starts_run_witness :
  (loop_body (clock_at (DateTime 9 0 0)) F5_then_no_keys AppState_init (-1)
     world_init).1 = Some (Continue (set_mode Run AppState_init) (-1)).
Proof.
  assert (Hdraw : ∃ screen w1,
    draw_interface (clock_at (DateTime 9 0 0)) (set_mode Run AppState_init)
      world_init = (Some screen, w1)).
  { eexists _, _. vm_compute. reflexivity. }
  destruct Hdraw as (screen & w1 & Hdraw).
  destruct (f5_starts_run (clock_at (DateTime 9 0 0)) F5_then_no_keys
              AppState_init (-1) world_init world_init screen w1
              eq_refl AppState_init_well_formed eq_refl Hdraw)
    as [Hstart _].
  - simpl. lia.
  - exact Hstart.
Defined.

Lemma run_mode_is_final_witness :
  ∃ state lm w state' lm' w',
    main (clock_at (DateTime 9 0 0)) F5_then_no_keys 1
      = (Some (Continue state lm), w) ∧
    main (clock_at (DateTime 9 0 0)) F5_then_no_keys (1 + 2)
      = (Some (Continue state' lm'), w') ∧
    state' = state.
Proof.
  assert (Hruns : ∃ state lm w state' lm' w',
    main (clock_at (DateTime 9 0 0)) F5_then_no_keys 1
      = (Some (Continue state lm), w) ∧
    mode state = Run ∧
    main (clock_at (DateTime 9 0 0)) F5_then_no_keys (1 + 2)
      = (Some (Continue state' lm'), w')).
  { eexists _, _, _, _, _, _. split; [vm_compute; reflexivity|].
    split; vm_compute; reflexivity. }
  destruct Hruns as (state & lm & w & state' & lm' & w' & H1 & Hrun & H3).
  exists state, lm, w, state', lm', w'. split; [exact H1|]. split; [exact H3|].
  exact (run_mode_is_final (clock_at (DateTime 9 0 0)) F5_then_no_keys 1 2
           state lm w state' lm' w' H1 Hrun H3).
Defined.

Lemma run_goes_on_in_window_witness :
  ∃ lm' w',
    main_loop (clock_at (DateTime 9 0 0)) no_keys 2 (set_mode Run AppState_init)
      0 world_init = (Some (Continue (set_mode Run AppState_init) lm'), w').
Proof.
  destruct (run_goes_on_in_window (clock_at (DateTime 9 0 0)) no_keys 2
              (set_mode Run AppState_init) 0 world_init eq_refl
              AppState_init_well_formed)
    as (lm' & w' & emitted & Hloop & _).
  - intros n. unfold clock_at, valid_time, in_window, START_HOUR, END_HOUR.
    simpl. lia.
  - intros n. unfold no_keys, ord_q, ord_Q. lia.
  - exists lm', w'. exact Hloop.
Defined.

(** * The slot lists in the states the program reaches *)

Lemma reachable_tasks_ok state :
  reachable state →
  Forall (λ t, slots_unique t ∧ slots_disjoint t) (tasks state).
Proof.
  intros [[keys ->]|(clock & keyboard & fuel & lm & w & Hmain)].
  - apply reachable_slots_ok.
  - destruct (main_reaches_good_states clock keyboard fuel state lm w Hmain)
      as [_ Hgood].
    eapply Forall_impl; [exact Hgood|]. by intros t (_ & Hu & Hd).
Qed.

Lemma occurrences_cons s z l :
  occurrences s (z :: l)
  = ((if bool_decide (z = s) then 1 else 0) + occurrences s l)%nat.
Proof.
  unfold occurrences. rewrite filter_cons.
  case_decide; case_bool_decide; simpl; done.
Qed.

Lemma occurrences_0 s l : occurrences s l = 0%nat → s ∉ l.
Proof.
  induction l as [|z l IH]; [intros _; apply not_elem_of_nil|].
  rewrite occurrences_cons, not_elem_of_cons.
  case_bool_decide as Hz; [simpl; lia|]. intros Hocc. split; [done|].
  by apply IH.
Qed.

Lemma py_remove_last_occurrence s l :
  (occurrences s l ≤ 1)%nat → s ∉ py_remove s l.
Proof.
  induction l as [|z l IH]; simpl; [intros _; apply not_elem_of_nil|].
  rewrite occurrences_cons. case_bool_decide as Hz; simpl; intros Hocc.
  - apply occurrences_0. lia.
  - rewrite not_elem_of_cons. split; [done|]. by apply IH.
Qed.

Lemma occurrences_absent s l : s ∉ l → occurrences s l = 0%nat.
Proof.
  induction l as [|z l IH]; [done|].
  rewrite occurrences_cons, not_elem_of_cons. intros [Hne Hnin].
  rewrite bool_decide_false by done. by rewrite IH.
Qed.

Lemma NoDup_occurrences s l : NoDup l → (occurrences s l ≤ 1)%nat.
Proof.
  induction 1 as [|z l Hz Hl IH]; [unfold occurrences; simpl; lia|].
  rewrite occurrences_cons. case_bool_decide as Hzs; simpl; [|done].
  subst z. rewrite occurrences_absent by done. lia.
Qed.

Lemma toggle_work_disjoint task s :
  slots_disjoint task → (occurrences s (rest_slots task) ≤ 1)%nat →
  slots_disjoint (toggle_work task s).
Proof.
  rewrite !slots_disjoint_alt. intros Hd Hocc. unfold toggle_work.
  case_bool_decide as Hsw; [|case_bool_decide as Hsr]; simpl.
  - intros x Hx%py_remove_subseteq. eauto.
  - intros x [Hx| ->%list_elem_of_singleton]%elem_of_app.
    + intros Hx'%py_remove_subseteq. eauto.
    + by apply py_remove_last_occurrence.
  - intros x [Hx| ->%list_elem_of_singleton]%elem_of_app; eauto.
Qed.

Lemma toggle_rest_disjoint task s :
  slots_disjoint task → (occurrences s (slots task) ≤ 1)%nat →
  slots_disjoint (toggle_rest task s).
Proof.
  rewrite !slots_disjoint_alt. intros Hd Hocc. unfold toggle_rest.
  case_bool_decide as Hsr; [|case_bool_decide as Hsw]; simpl.
  - intros x Hx Hx'%py_remove_subseteq. eauto.
  - intros x Hx [Hx'| ->%list_elem_of_singleton]%elem_of_app.
    + apply py_remove_subseteq in Hx. eauto.
    + by apply py_remove_last_occurrence in Hx.
  - intros x Hx [Hx'| ->%list_elem_of_singleton]%elem_of_app; eauto.
Qed.

Lemma toggle_work_twice_Permutation task s :
  (occurrences s (slots task) ≤ 1)%nat →
  slots (toggle_work (toggle_work task s) s) ≡ₚ slots task.
Proof.
  intros Hocc. unfold toggle_work at 2.
  case_bool_decide as Hsw; [|case_bool_decide as Hsr].
  - pose proof (py_remove_last_occurrence s (slots task) Hocc) as Hgone.
    unfold toggle_work. simpl. rewrite bool_decide_false by done.
    case_bool_decide; simpl;
      (etrans; [apply Permutation_app_comm|]; symmetry;
       by apply py_remove_Permutation).
  - unfold toggle_work. simpl.
    rewrite bool_decide_true
      by (apply elem_of_app; right; by apply list_elem_of_singleton).
    simpl. by rewrite py_remove_app_fresh.
  - unfold toggle_work. simpl.
    rewrite bool_decide_true
      by (apply elem_of_app; right; by apply list_elem_of_singleton).
    simpl. by rewrite py_remove_app_fresh.
Qed.

(** C1: in every state the program reaches, the work list and the rest
    list of every task are disjoint, and they are disjoint again after the
    Space handler's toggle and after the R handler's toggle on any slot, so
    after any key passed to the handler; toggling work on a rest slot takes
    the slot out of the rest list and into the work list, and toggling rest
    on a work slot takes it out of the work list and into the rest list.
    Space and R at the cursor are these toggles on the task under the
    cursor.  For a task of any state, disjointness is kept by the work
    toggle when the slot is listed at most once as rest, and by the rest
    toggle when it is listed at most once as work. *)
Theorem toggle_keeps_disjoint state k task s :
  reachable state →
  tasks state !! k = Some task →
  slots_disjoint task ∧
  slots_disjoint (toggle_work task s) ∧
  slots_disjoint (toggle_rest task s) ∧
  (s ∈ rest_slots task →
     (s ∉ rest_slots (toggle_work task s)) ∧ s ∈ slots (toggle_work task s)) ∧
  (s ∈ slots task →
     (s ∉ slots (toggle_rest task s)) ∧ s ∈ rest_slots (toggle_rest task s)) ∧
  (∀ key, Forall slots_disjoint (tasks (handle_edit_input state key).1)) ∧
  (∀ k',
     edit_focus state = FocusSlots →
     py_get (tasks state) (cursor_row state) = Some (k', task) →
     cursor_col state = s →
     handle_edit_input state ord_space
     = (set_task k' (toggle_work task s) state, Return false) ∧
     ∀ key, key = ord_r ∨ key = ord_R →
       handle_edit_input state key
       = (set_task k' (toggle_rest task s) state, Return false)) ∧
  (∀ t,
     slots_disjoint t →
     ((occurrences s (rest_slots t) ≤ 1)%nat →
        slots_disjoint (toggle_work t s)) ∧
     ((occurrences s (slots t) ≤ 1)%nat →
        slots_disjoint (toggle_rest t s))).
Proof.
  intros Hreach Hk.
  pose proof (reachable_tasks_ok state Hreach) as Hok.
  destruct (Forall_lookup_1 _ _ _ _ Hok Hk) as [[Hw Hr] Hd].
  assert (Hdw : slots_disjoint (toggle_work task s))
    by (apply toggle_work_disjoint; [done|by apply NoDup_occurrences]).
  assert (Hdr : slots_disjoint (toggle_rest task s))
    by (apply toggle_rest_disjoint; [done|by apply NoDup_occurrences]).
  split; [done|]. split; [done|]. split; [done|].
  split; [|split; [|split; [|split]]].
  - intros Hrest. rewrite slots_disjoint_alt in Hdw, Hd.
    assert (Hin : s ∈ slots (toggle_work task s)).
    { unfold toggle_work. rewrite bool_decide_false by naive_solver.
      rewrite bool_decide_true by done. simpl. apply elem_of_app. right.
      by apply list_elem_of_singleton. }
    naive_solver.
  - intros Hwork. rewrite slots_disjoint_alt in Hdr, Hd.
    assert (Hin : s ∈ rest_slots (toggle_rest task s)).
    { unfold toggle_rest. rewrite bool_decide_false by naive_solver.
      rewrite bool_decide_true by done. simpl. apply elem_of_app. right.
      by apply list_elem_of_singleton. }
    naive_solver.
  - intros key.
    eapply Forall_impl;
      [apply (handle_tasks_Forall (λ t, slots_unique t ∧ slots_disjoint t))|].
    + intros t c [Hu' Hd']. by apply toggle_work_ok.
    + intros t c [Hu' Hd']. by apply toggle_rest_ok.
    + by intros t.
    + by intros t c ? _.
    + exact Hok.
    + by intros t [_ Hd'].
  - intros k' Hf Hget <-. split.
    + by apply handle_space.
    + intros key Hkey. by apply handle_r.
  - intros t Hdt. split; intros Hocc.
    + by apply toggle_work_disjoint.
    + by apply toggle_rest_disjoint.
Qed.

Lemma toggle_keeps_disjoint_witness :
  let state :=
    edit_session AppState_init [ord_tab; ord_space; KEY_RIGHT; ord_r] in
  let task := mkTask [] [0] [1] in
  reachable state ∧
  tasks state !! 0%nat = Some task ∧
  cursor_col state = 1 ∧
  slots_disjoint (toggle_work task 1) ∧
  toggle_work task 1 = mkTask [] [0; 1] [] ∧
  handle_edit_input state ord_space
  = (set_task 0 (toggle_work task 1) state, Return false).
Proof.
  intros state task.
  assert (Hreach : reachable state) by (left; by eexists).
  assert (Hk : tasks state !! 0%nat = Some task) by reflexivity.
  destruct (toggle_keeps_disjoint state 0 task 1 Hreach Hk)
    as (_ & Hdw & _ & _ & _ & _ & Hkeys & _).
  split; [exact Hreach|]. split; [exact Hk|]. split; [reflexivity|].
  split; [exact Hdw|]. split; [reflexivity|].
  apply (Hkeys 0%nat); reflexivity.
Defined.

(** C4: for every task of every state the program reaches and every
    slot, applying the Space handler's toggle twice in succession gives
    back the set of work slots that was there before the first toggle (the
    same list up to order), and the very same list when the slot was not a
    work slot to begin with; that covers a slot that was a rest slot, where
    the first toggle moves it from the rest list to the work list and the
    second takes it out of the work list again.  Two Space presses at the
    cursor are these two toggles on the task under the cursor.  For a task
    of any state the work slots come back whenever the slot is listed at
    most once as work. *)
Theorem toggle_work_twice state k task s :
  reachable state →
  tasks state !! k = Some task →
  let once := toggle_work task s in
  let twice := toggle_work once s in
  (∀ x, x ∈ slots twice ↔ x ∈ slots task) ∧
  slots twice ≡ₚ slots task ∧
  (s ∉ slots task → slots twice = slots task) ∧
  (s ∈ rest_slots task →
     (s ∉ slots task) ∧
     slots once = slots task ++ [s] ∧
     rest_slots once = py_remove s (rest_slots task) ∧
     slots twice = slots task) ∧
  (∀ k',
     edit_focus state = FocusSlots →
     py_get (tasks state) (cursor_row state) = Some (k', task) →
     cursor_col state = s →
     edit_session state [ord_space; ord_space] = set_task k' twice state) ∧
  (∀ t,
     (occurrences s (slots t) ≤ 1)%nat →
     slots (toggle_work (toggle_work t s) s) ≡ₚ slots t ∧
     ∀ x, x ∈ slots (toggle_work (toggle_work t s) s) ↔ x ∈ slots t).
Proof.
  intros Hreach Hk once twice.
  pose proof (reachable_tasks_ok state Hreach) as Hok.
  destruct (Forall_lookup_1 _ _ _ _ Hok Hk) as [[Hw Hr] Hd].
  assert (Hperm : slots twice ≡ₚ slots task)
    by (by apply toggle_work_twice_Permutation, NoDup_occurrences).
  assert (Hslots := toggle_work_twice_slots task s Hw).
  fold once twice in Hslots.
  split; [|split; [done|split; [|split; [|split]]]].
  - intros x. by rewrite Hperm.
  - intros Hsw. rewrite Hslots. by rewrite bool_decide_false.
  - intros Hsr.
    assert (Hsw : s ∉ slots task).
    { intros Hsw. rewrite slots_disjoint_alt in Hd. eauto. }
    split; [done|]. subst once. unfold toggle_work at 1 2.
    rewrite bool_decide_false, bool_decide_true by done. simpl.
    split; [done|]. split; [done|].
    rewrite Hslots. by rewrite bool_decide_false.
  - intros k' Hf Hget Hcol. simpl.
    rewrite (handle_space state k' task Hf Hget).
    rewrite (handle_space _ k' (toggle_work task (cursor_col state))); [|done|].
    + rewrite set_task_twice. simpl. by subst s.
    + simpl. by eapply py_get_insert.
  - intros t Hocc.
    pose proof (toggle_work_twice_Permutation t s Hocc) as Hpt.
    split; [done|]. intros x. by rewrite Hpt.
Qed.

Lemma toggle_work_twice_witness :
  let state :=
    edit_session AppState_init [ord_tab; ord_space; KEY_RIGHT; ord_r] in
  let task := mkTask [] [0] [1] in
  reachable state ∧
  tasks state !! 0%nat = Some task ∧
  slots (toggle_work task 1) = [0; 1] ∧
  slots (toggle_work (toggle_work task 1) 1) = [0] ∧
  edit_session state [ord_space; ord_space]
  = set_task 0 (toggle_work (toggle_work task 1) 1) state.
Proof.
  intros state task.
  assert (Hreach : reachable state) by (left; by eexists).
  assert (Hk : tasks state !! 0%nat = Some task) by reflexivity.
  destruct (toggle_work_twice state 0 task 1 Hreach Hk)
    as (_ & _ & _ & Hmove & Hkeys & _).
  assert (Hsr : 1 ∈ rest_slots task) by compute_done.
  destruct (Hmove Hsr) as (_ & Hslots1 & _ & Hslots2).
  split; [exact Hreach|]. split; [exact Hk|]. split; [exact Hslots1|].
  split; [exact Hslots2|]. apply (Hkeys 0%nat); reflexivity.
Defined.
